(** * ai-agent-app: the tools and the result reporter, embedded and verified

    A shallow embedding of
      - [app/tools/math_tool.py]  ([evaluate_math_expression]),
      - [app/tools/weather.py]    ([get_weather]),
      - [app/agent.py]            ([process_query_with_agent_streaming]).

    Conventions.  A Python [str] is a [string]; each [ascii] stands for
    one code point below 256.  A Python [float] is an IEEE-754 binary64
    value, written as a [spec_float] with precision 53 and maximal
    exponent 1024.  A Python [int] is a [Z].  Python exceptions are
    values of [exn]; code that may raise returns a [res]. *)

From Stdlib Require Import ZArith NArith List String Ascii Bool Lia.
From Stdlib Require Import SpecFloat QArith.
Import ListNotations.

Local Open Scope string_scope.
Local Open Scope Z_scope.

(* ================================================================= *)
(** ** Python exceptions and the error monad *)

(** The exception classes that the embedded code can meet. *)
Inductive exn_class :=
  | Exception
  | ValueError
  | ArithmeticError
  | ZeroDivisionError
  | OverflowError
  | LookupError
  | KeyError
  | IndexError
  | TypeError
  | AttributeError
  | RequestException
  | HTTPError
  | ConnectionError
  | JSONDecodeError.

(** Direct base class; [Exception] is the root of the hierarchy used
    here.  [requests.exceptions.JSONDecodeError] derives from
    [RequestException] (and from [ValueError], its second base). *)
Definition base_of (c : exn_class) : list exn_class :=
  match c with
  | Exception => []
  | ValueError => [Exception]
  | ArithmeticError => [Exception]
  | ZeroDivisionError => [ArithmeticError]
  | OverflowError => [ArithmeticError]
  | LookupError => [Exception]
  | KeyError => [LookupError]
  | IndexError => [LookupError]
  | TypeError => [Exception]
  | AttributeError => [Exception]
  | RequestException => [Exception]
  | HTTPError => [RequestException]
  | ConnectionError => [RequestException]
  | JSONDecodeError => [RequestException; ValueError]
  end.

Definition exn_class_eqb (a b : exn_class) : bool :=
  match a, b with
  | Exception, Exception | ValueError, ValueError
  | ArithmeticError, ArithmeticError
  | ZeroDivisionError, ZeroDivisionError
  | OverflowError, OverflowError | LookupError, LookupError
  | KeyError, KeyError | IndexError, IndexError | TypeError, TypeError
  | AttributeError, AttributeError
  | RequestException, RequestException | HTTPError, HTTPError
  | ConnectionError, ConnectionError
  | JSONDecodeError, JSONDecodeError => true
  | _, _ => false
  end.

(** [issubclass c target], by walking the bases (the hierarchy has
    depth at most 3). *)
Fixpoint issubclass_fuel (fuel : nat) (c target : exn_class) : bool :=
  exn_class_eqb c target ||
  match fuel with
  | O => false
  | S f => existsb (fun b => issubclass_fuel f b target) (base_of c)
  end.

Definition issubclass : exn_class -> exn_class -> bool := issubclass_fuel 3.

(** An exception object: its class and what [str(e)] gives. *)
Record exn := mk_exn { exn_cls : exn_class; exn_str : string }.

Definition isinstance (e : exn) (c : exn_class) : bool :=
  issubclass (exn_cls e) c.

(** Outcome of a computation that may raise. *)
Inductive res (A : Type) :=
  | Ok (a : A)
  | Raise (e : exn).
Arguments Ok {A} a.
Arguments Raise {A} e.

Definition bind {A B} (m : res A) (k : A -> res B) : res B :=
  match m with
  | Ok a => k a
  | Raise e => Raise e
  end.

Notation "x <- m ;; k" := (bind m (fun x => k))
  (at level 61, m at next level, right associativity).

(** One [except C as e: handler] clause. *)
Definition except_clause (A : Type) : Type := (exn_class * (exn -> res A))%type.

(** [try: body  except C1 ...: h1  except C2 ...: h2 ...]: the first
    clause whose class the exception is an instance of handles it; with
    no such clause the exception propagates. *)
Fixpoint dispatch {A} (e : exn) (hs : list (except_clause A)) : res A :=
  match hs with
  | [] => Raise e
  | (c, h) :: hs' => if isinstance e c then h e else dispatch e hs'
  end.

Definition try_except {A} (body : res A) (hs : list (except_clause A)) : res A :=
  match body with
  | Ok a => Ok a
  | Raise e => dispatch e hs
  end.

(* ================================================================= *)
(** ** Python strings *)

Definition code (c : ascii) : N := N_of_ascii c.

(** [str.isspace] on one character, for code points below 256:
    U+0009..U+000D, U+001C..U+0020, U+0085 and U+00A0. *)
Definition isspace (c : ascii) : bool :=
  let n := code c in
  ((9 <=? n) && (n <=? 13) || (28 <=? n) && (n <=? 32)
   || (n =? 133) || (n =? 160))%N.

Definition is_digit (c : ascii) : bool :=
  let n := code c in ((48 <=? n) && (n <=? 57))%N.

Definition snoc (s : string) (c : ascii) : string := s ++ String c "".

(** [s.split()] with no separator: maximal runs of non-space
    characters, in order.  [cur] is the token being read. *)
Fixpoint split_from (cur : string) (s : string) : list string :=
  match s with
  | EmptyString => match cur with EmptyString => [] | _ => [cur] end
  | String c s' =>
      if isspace c then
        match cur with
        | EmptyString => split_from "" s'
        | _ => cur :: split_from "" s'
        end
      else split_from (snoc cur c) s'
  end.

Definition py_split (s : string) : list string := split_from "" s.

Fixpoint lstrip (s : string) : string :=
  match s with
  | String c s' => if isspace c then lstrip s' else s
  | EmptyString => EmptyString
  end.

Fixpoint rstrip (s : string) : string :=
  match s with
  | EmptyString => EmptyString
  | String c s' =>
      match rstrip s' with
      | EmptyString => if isspace c then EmptyString else String c EmptyString
      | t => String c t
      end
  end.

(** [s.strip()]. *)
Definition py_strip (s : string) : string := rstrip (lstrip s).

(** ASCII lower-casing, for case-insensitive matching. *)
Definition to_lower (c : ascii) : ascii :=
  let n := code c in
  if ((65 <=? n) && (n <=? 90))%N then ascii_of_N (n + 32) else c.

Fixpoint lower (s : string) : string :=
  match s with
  | EmptyString => EmptyString
  | String c s' => String (to_lower c) (lower s')
  end.

(** [needle in hay]. *)
Fixpoint contains (needle hay : string) : bool :=
  prefix needle hay ||
  match hay with
  | EmptyString => false
  | String _ hay' => contains needle hay'
  end.

(** Decimal rendering of an [int]. *)
Fixpoint digits_of_pos_fuel (fuel : nat) (n : N) (acc : string) : string :=
  match fuel with
  | O => acc
  | S f =>
      let acc' := String (ascii_of_N (48 + n mod 10)) acc in
      if (n / 10 =? 0)%N then acc' else digits_of_pos_fuel f (n / 10)%N acc'
  end.

Definition str_of_N (n : N) : string :=
  digits_of_pos_fuel (S (N.to_nat (N.log2 n))) n "".

Definition str_of_int (z : Z) : string :=
  match z with
  | Zneg p => "-" ++ str_of_N (Npos p)
  | _ => str_of_N (Z.to_N z)
  end.


(** [d.get(key)] on a dictionary given by its items. *)
Fixpoint dict_get {V} (d : list (string * V)) (key : string) : option V :=
  match d with
  | [] => None
  | (k, v) :: d' => if String.eqb k key then Some v else dict_get d' key
  end.

(* ================================================================= *)
(** ** Python floats (IEEE-754 binary64) *)

Definition float := spec_float.

Definition prec64 : Z := 53.
Definition emax64 : Z := 1024.

Definition float_add : float -> float -> float := SFadd prec64 emax64.
Definition float_sub : float -> float -> float := SFsub prec64 emax64.
Definition float_mul : float -> float -> float := SFmul prec64 emax64.

(** Python's [float.__truediv__]: a zero divisor (of either sign)
    raises, whatever the dividend. *)
Definition float_truediv (a b : float) : res float :=
  match b with
  | S754_zero _ => Raise (mk_exn ZeroDivisionError "float division by zero")
  | _ => Ok (SFdiv prec64 emax64 a b)
  end.

(** The double nearest to [(-1)^neg * m * 10^e10] (ties to even), as
    the decimal-to-binary conversion behind [float(str)] computes it. *)
Definition float_of_decimal (neg : bool) (m : N) (e10 : Z) : float :=
  match m with
  | N0 => S754_zero neg
  | Npos p =>
      match e10 with
      | Zneg k =>
          let '(q, e, l) :=
            SFdiv_core_binary prec64 emax64 (Zpos p) 0 (Zpos (10 ^ k)) 0 in
          binary_round_aux prec64 emax64 neg q e l
      | _ => binary_round prec64 emax64 neg (p * Z.to_pos (10 ^ e10)) 0
      end
  end.

(** [int(x)] for a float: truncation toward zero; infinities and NaN
    raise. *)
Definition int_of_float (x : float) : res Z :=
  match x with
  | S754_nan =>
      Raise (mk_exn ValueError "cannot convert float NaN to integer")
  | S754_infinity _ =>
      Raise (mk_exn OverflowError "cannot convert float infinity to integer")
  | S754_zero _ => Ok 0
  | S754_finite s m e =>
      Ok (cond_Zopp s (match e with
                       | Zneg k => Z.shiftr (Zpos m) (Zpos k)
                       | _ => Z.shiftl (Zpos m) e
                       end))
  end.

(** [x == n] for a float [x] and an int [n]: Python compares the two
    exact values. *)
Definition float_eq_int (x : float) (n : Z) : bool :=
  match x with
  | S754_nan | S754_infinity _ => false
  | S754_zero _ => n =? 0
  | S754_finite s m e =>
      match e with
      | Zneg k => cond_Zopp s (Zpos m) =? n * 2 ^ Zpos k
      | _ => cond_Zopp s (Zpos m * 2 ^ e) =? n
      end
  end.

(** *** [float(s)] for a string *)

Fixpoint span_digits (s : string) : string * string :=
  match s with
  | String c s' =>
      if is_digit c then let '(d, r) := span_digits s' in (String c d, r)
      else (EmptyString, s)
  | EmptyString => (EmptyString, EmptyString)
  end.

Fixpoint digits_value (acc : N) (ds : string) : N :=
  match ds with
  | EmptyString => acc
  | String c ds' => digits_value (10 * acc + (code c - 48))%N ds'
  end.

(** An optional leading sign: [(is_negative, rest)]. *)
Definition take_sign (s : string) : bool * string :=
  match s with
  | String "-" s' => (true, s')
  | String "+" s' => (false, s')
  | _ => (false, s)
  end.

(** Digit grouping: an underscore may only stand between two digits.
    Returns the string without its underscores, or [None].  [prev] is
    the previous character ([None] at the start). *)
Fixpoint strip_underscores (prev : option ascii) (s : string) : option string :=
  match s with
  | EmptyString =>
      match prev with
      | Some "_"%char => None
      | _ => Some EmptyString
      end
  | String c s' =>
      if Ascii.eqb c "_" then
        match prev with
        | Some p => if is_digit p then strip_underscores (Some c) s' else None
        | None => None
        end
      else
        match prev with
        | Some "_"%char =>
            if is_digit c
            then option_map (String c) (strip_underscores (Some c) s')
            else None
        | _ => option_map (String c) (strip_underscores (Some c) s')
        end
  end.

(** [[digits] [. digits] [(e|E) [sign] digits]] with at least one
    mantissa digit, consuming the whole string: the mantissa digits read
    as one integer [m] and the power of ten [e10], so that the literal
    denotes [m * 10^e10]. *)
Definition parse_decimal_parts (s : string) : option (N * Z) :=
  let '(ip, r1) := span_digits s in
  let '(fp, r2) :=
    match r1 with
    | String "." r => span_digits r
    | _ => (EmptyString, r1)
    end in
  match (ip ++ fp)%string with
  | EmptyString => None
  | mant =>
      let scale := Z.of_nat (String.length fp) in
      match r2 with
      | EmptyString => Some (digits_value 0 mant, - scale)
      | String c r3 =>
          if Ascii.eqb (to_lower c) "e" then
            let '(eneg, r4) := take_sign r3 in
            match span_digits r4 with
            | (String d ds, EmptyString) =>
                let ev := Z.of_N (digits_value 0 (String d ds)) in
                Some (digits_value 0 mant, cond_Zopp eneg ev - scale)
            | _ => None
            end
          else None
      end
  end.

Definition parse_decimal (neg : bool) (s : string) : option float :=
  match parse_decimal_parts s with
  | Some (m, e10) => Some (float_of_decimal neg m e10)
  | None => None
  end.

(** [inf], [infinity] and [nan], in any letter case. *)
Definition parse_inf_or_nan (neg : bool) (s : string) : option float :=
  let l := lower s in
  if String.eqb l "inf" || String.eqb l "infinity" then Some (S754_infinity neg)
  else if String.eqb l "nan" then Some S754_nan
  else None.

Definition parse_float (s : string) : option float :=
  match strip_underscores None (py_strip s) with
  | None => None
  | Some t =>
      let '(neg, body) := take_sign t in
      match parse_decimal neg body with
      | Some x => Some x
      | None => parse_inf_or_nan neg body
      end
  end.

(** [float(s)]: raises [ValueError] when [s] is not a float literal. *)
Definition py_float (s : string) : res float :=
  match parse_float s with
  | Some x => Ok x
  | None => Raise (mk_exn ValueError "could not convert string to float")
  end.

(* ================================================================= *)
(** ** app/tools/math_tool.py *)

Module MathTool.

(** What the tool returns: [Union[int, float, str]]. *)
Inductive value :=
  | VInt (n : Z)
  | VFloat (x : float)
  | VStr (s : string).

Definition binop : Type := float -> float -> res float.

(** The [ops] dictionary: [operator.add], [operator.sub],
    [operator.mul] and [operator.truediv] on floats. *)
Definition ops : list (string * binop) :=
  [ ("+", fun a b => Ok (float_add a b));
    ("-", fun a b => Ok (float_sub a b));
    ("*", fun a b => Ok (float_mul a b));
    ("/", float_truediv) ].

Definition msg_format : string :=
  "Invalid math expression format. Expected 'number operator number' (e.g., '42 * 7').".
Definition msg_unsupported (op_char : string) : string :=
  "Unsupported operator: '" ++ op_char ++ "'. Only +, -, *, / are supported.".
Definition msg_numbers : string :=
  "Invalid numbers in expression. Please ensure numbers are valid (e.g., '10', '5.5').".
Definition msg_zero : string := "Division by zero is not allowed.".
Definition msg_unexpected (e : exn) : string :=
  "An unexpected error occurred during math evaluation: " ++ exn_str e.

(** The body of the [try] block, for the three parts of the
    expression. *)
Definition try_body (p0 p1 p2 : string) : res value :=
  num1 <- py_float p0 ;;
  let op_char := p1 in
  num2 <- py_float p2 ;;
  match dict_get ops op_char with
  | None => Ok (VStr (msg_unsupported op_char))
  | Some operation =>
      result <- operation num1 num2 ;;
      n <- int_of_float result ;;
      if float_eq_int result n
      then (n' <- int_of_float result ;; Ok (VInt n'))
      else Ok (VFloat result)
  end.

Definition handlers : list (except_clause value) :=
  [ (ValueError, fun _ => Ok (VStr msg_numbers));
    (ZeroDivisionError, fun _ => Ok (VStr msg_zero));
    (Exception, fun e => Ok (VStr (msg_unexpected e))) ].

Definition evaluate_math_expression (expression : string) : res value :=
  let parts := py_split (py_strip expression) in
  match parts with
  | [p0; p1; p2] => try_except (try_body p0 p1 p2) handlers
  | _ => Ok (VStr msg_format)
  end.

End MathTool.

(* ================================================================= *)
(** ** app/tools/weather.py *)

Module Weather.

(** A decoded JSON document, as [response.json()] returns it. *)
#[warnings="-register-all"]
Inductive json :=
  | JNull
  | JBool (b : bool)
  | JInt (n : Z)
  | JFloat (x : float)
  | JStr (s : string)
  | JList (l : list json)
  | JDict (items : list (string * json)).

(** A [requests.Response]: the fields the tool reads.  [json_result]
    is what [response.json()] does on the body: the decoded document,
    or the exception it raises. *)
Record response := mk_response {
  status_code : Z;
  reason : string;
  url : string;
  json_result : res json
}.

(** Programs that may issue HTTP GET requests.  [HttpGet u ps k] calls
    [requests.get(u, params=ps)] and continues with its outcome: a
    response, or the exception the call raised. *)
Inductive io (A : Type) :=
  | Ret (a : A)
  | HttpGet (u : string) (params : list (string * string))
            (k : res response -> io A).
Arguments Ret {A} a.
Arguments HttpGet {A} u params k.

Record request := mk_request {
  req_url : string;
  req_params : list (string * string)
}.

(** The network: what each request is answered with. *)
Definition network : Type := request -> res response.

(** Run a program against a network; the requests made, in order, and
    the result. *)
Fixpoint run {A} (net : network) (p : io A) : list request * A :=
  match p with
  | Ret a => ([], a)
  | HttpGet u ps k =>
      let rq := mk_request u ps in
      let '(log, a) := run net (k (net rq)) in
      (rq :: log, a)
  end.

Definition placeholder_key : string := "YOUR_OPENWEATHER_API_KEY".

(** [os.getenv("OPENWEATHER_API_KEY", "YOUR_OPENWEATHER_API_KEY")];
    [env] is the environment variable, [None] when unset. *)
Definition OPENWEATHER_API_KEY (env : option string) : string :=
  match env with
  | Some k => k
  | None => placeholder_key
  end.

Definition OPENWEATHER_BASE_URL : string :=
  "http://api.openweathermap.org/data/2.5/weather".

(** [Response.raise_for_status]. *)
Definition raise_for_status (r : response) : res unit :=
  let sc := status_code r in
  if (400 <=? sc) && (sc <? 500) then
    Raise (mk_exn HTTPError
             (str_of_int sc ++ " Client Error: " ++ reason r
              ++ " for url: " ++ url r))
  else if (500 <=? sc) && (sc <? 600) then
    Raise (mk_exn HTTPError
             (str_of_int sc ++ " Server Error: " ++ reason r
              ++ " for url: " ++ url r))
  else Ok tt.

Definition type_name (v : json) : string :=
  match v with
  | JNull => "NoneType"
  | JBool _ => "bool"
  | JInt _ => "int"
  | JFloat _ => "float"
  | JStr _ => "str"
  | JList _ => "list"
  | JDict _ => "dict"
  end.

(** [v.get(key, default)]: only a [dict] has the method. *)
Definition py_get (v : json) (key : string) (default : json) : res json :=
  match v with
  | JDict d =>
      Ok (match dict_get d key with Some x => x | None => default end)
  | _ =>
      Raise (mk_exn AttributeError
               ("'" ++ type_name v ++ "' object has no attribute 'get'"))
  end.

(** [v[0]]. *)
Definition subscript0 (v : json) : res json :=
  match v with
  | JList (x :: _) => Ok x
  | JList [] => Raise (mk_exn IndexError "list index out of range")
  | JStr (String c _) => Ok (JStr (String c ""))
  | JStr EmptyString => Raise (mk_exn IndexError "string index out of range")
  | JDict _ => Raise (mk_exn KeyError "0")
  | _ =>
      Raise (mk_exn TypeError
               ("'" ++ type_name v ++ "' object is not subscriptable"))
  end.

(** [v == 200]. *)
Definition eq_200 (v : json) : bool :=
  match v with
  | JInt n => n =? 200
  | JFloat x => float_eq_int x 200
  | _ => false
  end.

Definition is_none (v : json) : bool :=
  match v with
  | JNull => true
  | _ => false
  end.

(** U+00B0, the degree sign. *)
Definition degree : string := String (ascii_of_N 176) "".

Definition msg_key : string :=
  "Weather API key not configured. Please set OPENWEATHER_API_KEY in your environment.".

Section GetWeather.

(** [repr] of floats, lists and dictionaries, which [str()] and
    f-strings fall back on for these values. *)
Variable py_repr : json -> string.

(** How an f-string renders [{v}]. *)
Definition fmt (v : json) : string :=
  match v with
  | JStr s => s
  | JInt n => str_of_int n
  | JBool true => "True"
  | JBool false => "False"
  | JNull => "None"
  | _ => py_repr v
  end.

Definition msg_api (location : string) (message : json) : string :=
  "Could not retrieve weather for " ++ location ++ ": " ++ fmt message.
Definition msg_network (location : string) (e : exn) : string :=
  "Error fetching weather for " ++ location
  ++ ": A network error occurred: " ++ exn_str e.
Definition msg_unexpected (e : exn) : string :=
  "An unexpected error occurred while processing weather data: " ++ exn_str e.

(** The [if data.get("cod") == 200: ... else: ...] statement. *)
Definition report (location : string) (data : json) : res string :=
  cod <- py_get data "cod" JNull ;;
  if eq_200 cod then
    main_data <- py_get data "main" (JDict []) ;;
    weather <- py_get data "weather" (JList [JDict []]) ;;
    first <- subscript0 weather ;;
    weather_description <- py_get first "description" (JStr "unknown") ;;
    temperature <- py_get main_data "temp" JNull ;;
    city_name <- py_get data "name" JNull ;;
    sys <- py_get data "sys" (JDict []) ;;
    country <- py_get sys "country" JNull ;;
    if negb (is_none temperature) then
      Ok ("It's " ++ fmt temperature ++ degree ++ "C and "
          ++ fmt weather_description ++ " in " ++ fmt city_name ++ ", "
          ++ fmt country ++ ".")
    else
      Ok ("Weather data available for " ++ fmt city_name ++ ", "
          ++ fmt country ++ ", but temperature is missing.")
  else
    message <- py_get data "message" (JStr "Unknown error from API") ;;
    Ok (msg_api location message).

(** The body of the [try] block, from the outcome of
    [requests.get] on. *)
Definition try_body (location : string) (got : res response) : res string :=
  response <- got ;;
  _ <- raise_for_status response ;;
  data <- json_result response ;;
  report location data.

Definition handlers (location : string) : list (except_clause string) :=
  [ (RequestException, fun e => Ok (msg_network location e));
    (Exception, fun e => Ok (msg_unexpected e)) ].

(** [get_weather(location="Chicago")]; [key] is the module constant
    [OPENWEATHER_API_KEY] and [location = None] a call without the
    argument. *)
Definition get_weather (key : string) (location : option string)
  : io (res string) :=
  let location :=
    match location with
    | Some l => l
    | None => "Chicago"
    end in
  if String.eqb key "" || String.eqb key placeholder_key then
    Ret (Ok msg_key)
  else
    let params := [("q", location); ("appid", key); ("units", "metric")] in
    HttpGet OPENWEATHER_BASE_URL params
      (fun got => Ret (try_except (try_body location got) (handlers location))).

End GetWeather.

End Weather.

(* ================================================================= *)
(** ** app/tools/llm_tool.py *)

Module LlmTool.

(** A chat message; the tool only builds [HumanMessage]s. *)
Inductive message :=
  | HumanMessage (content : string).

(** What the tool hands to the model client: the arguments of
    [ChatGoogleGenerativeAI(...)] and the messages of [llm.invoke]. *)
Record chat_request := mk_chat_request {
  model : string;
  google_api_key : string;
  temperature : Z;
  messages : list message
}.

(** Programs that may call the model.  [Invoke rq k] builds the
    client and invokes it, and continues with the outcome: the
    [content] of the reply, or the exception that building or invoking
    raised. *)
Inductive io (A : Type) :=
  | Ret (a : A)
  | Invoke (rq : chat_request) (k : res string -> io A).
Arguments Ret {A} a.
Arguments Invoke {A} rq k.

(** The model provider: what each request is answered with. *)
Definition provider : Type := chat_request -> res string.

(** Run a program against a provider; the calls made, in order, and
    the result. *)
Fixpoint run {A} (p : provider) (m : io A) : list chat_request * A :=
  match m with
  | Ret a => ([], a)
  | Invoke rq k =>
      let '(log, a) := run p (k (p rq)) in
      (rq :: log, a)
  end.

Definition placeholder_key : string := "YOUR_GOOGLE_API_KEY".

(** [os.getenv("GOOGLE_API_KEY", "YOUR_GOOGLE_API_KEY")]. *)
Definition GOOGLE_API_KEY (env : option string) : string :=
  match env with
  | Some k => k
  | None => placeholder_key
  end.

Definition msg_key : string :=
  "Google API key not configured for LLM. Please set GOOGLE_API_KEY in your environment.".

Definition msg_error (e : exn) : string :=
  "Error getting LLM response: " ++ exn_str e.

Definition handlers : list (except_clause string) :=
  [ (Exception, fun e => Ok (msg_error e)) ].

(** [get_llm_response(prompt)]; [key] is the module constant
    [GOOGLE_API_KEY]. *)
Definition get_llm_response (key : string) (prompt : string)
  : io (res string) :=
  if String.eqb key "" || String.eqb key placeholder_key then
    Ret (Ok msg_key)
  else
    Invoke
      {| model := "gemini-2.5-flash";
         google_api_key := key;
         temperature := 0;
         messages := [HumanMessage prompt] |}
      (fun reply =>
         Ret (try_except (content <- reply ;; Ok content) handlers)).

End LlmTool.

(* ================================================================= *)
(** ** json.dumps *)

Definition dquote : ascii := ascii_of_N 34.
Definition newline : ascii := ascii_of_N 10.

Definition hex_digit (n : N) : ascii :=
  if (n <? 10)%N then ascii_of_N (48 + n) else ascii_of_N (87 + n).

(** The replacement [json.encoder.py_encode_basestring_ascii] makes
    for one character: the short escapes, [\u00xx] for the other
    characters outside [' '..'~'], and the character itself
    otherwise. *)
Definition escape_char (c : ascii) : string :=
  let n := code c in
  if (n =? 34)%N then String "\" (String dquote "")
  else if (n =? 92)%N then "\\"
  else if (n =? 10)%N then "\n"
  else if (n =? 13)%N then "\r"
  else if (n =? 9)%N then "\t"
  else if (n =? 12)%N then "\f"
  else if (n =? 8)%N then "\b"
  else if ((32 <=? n) && (n <=? 126))%N then String c ""
  else "\u00" ++ String (hex_digit (n / 16)) (String (hex_digit (n mod 16)) "").

Fixpoint escape (s : string) : string :=
  match s with
  | EmptyString => EmptyString
  | String c s' => escape_char c ++ escape s'
  end.

(** [json.dumps(s)] for a string. *)
Definition dumps_str (s : string) : string :=
  String dquote (escape s ++ String dquote "").

(** The items of a dictionary, joined by [", "]. *)
Fixpoint dumps_items (items : list (string * string)) : string :=
  match items with
  | [] => ""
  | [(k, v)] => dumps_str k ++ ": " ++ dumps_str v
  | (k, v) :: rest => dumps_str k ++ ": " ++ dumps_str v ++ ", " ++ dumps_items rest
  end.

(** [json.dumps(d)] for a dictionary of strings (default separators,
    [ensure_ascii=True], insertion order). *)
Definition dumps_dict (items : list (string * string)) : string :=
  "{" ++ dumps_items items ++ "}".

(** *** Reading the line back

    A reader for JSON objects whose members are strings, as a client
    of the service decodes the line ([json.loads]); it is used to state
    what the line contains. *)











(* ================================================================= *)
(** ** app/agent.py *)

Module Agent.

(** An element of [chunk["actions"]]. *)
Inductive action_obj :=
  | AgentAction (tool : string) (tool_input : string)
  | OtherObject.

(** The value under ["actions"]. *)
Inductive actions_val :=
  | ActionsList (l : list action_obj)
  | NotAList.

(** The value under ["agent"]; an [AgentFinish] carries its
    [return_values] dictionary. *)
Inductive agent_val :=
  | AgentFinish (return_values : list (string * string))
  | OtherValue.

(** A chunk of [agent_executor.stream(...)]: the three keys the
    reporter looks at, [None] for a key that is not in the chunk. *)
Record chunk := mk_chunk {
  actions : option actions_val;
  output : option string;
  agent : option agent_val
}.

(** One run of the generator [agent_executor.stream({"input": query})]
    as the [for] loop sees it: it yields chunks, then is exhausted or
    raises.  (The executor stops after a bounded number of
    iterations, so a run is finite.) *)
Inductive stream :=
  | Exhausted
  | Raises (e : exn)
  | Yield (c : chunk) (rest : stream).

(** The local variables of [process_query_with_agent_streaming]. *)
Record locals := mk_locals {
  tool_used : string;
  final_result : string;
  tool_identified : bool
}.

Definition initial : locals :=
  {| tool_used := "llm";
     final_result := "An unexpected error occurred or no response from agent.";
     tool_identified := false |}.

Inductive control := Continue | Break.

(** The [if "actions" in chunk ...] statement. *)
Definition on_actions (st : locals) (c : chunk) : locals :=
  match actions c with
  | Some (ActionsList (agent_action :: _)) =>
      match agent_action with
      | AgentAction tool_used_raw _ =>
          if negb (tool_identified st) then
            let tu :=
              if String.eqb tool_used_raw "WeatherTool" then "weather"
              else if String.eqb tool_used_raw "MathTool" then "math"
              else if String.eqb tool_used_raw "LLMTool" then "llm"
              else tool_used st in
            {| tool_used := tu;
               final_result := final_result st;
               tool_identified := true |}
          else st
      | OtherObject => st
      end
  | _ => st
  end.

Definition set_result (st : locals) (r : string) : locals :=
  {| tool_used := tool_used st;
     final_result := r;
     tool_identified := tool_identified st |}.

(** The body of the [for] loop on one chunk: the locals afterwards,
    and whether the body fell through, hit [break], or raised. *)
Definition loop_body (st : locals) (c : chunk) : locals * res control :=
  let st1 := on_actions st c in
  match output c with
  | Some out => (set_result st1 out, Ok Break)
  | None =>
      match agent c with
      | Some (AgentFinish return_values) =>
          match dict_get return_values "output" with
          | Some out => (set_result st1 out, Ok Break)
          | None => (st1, Raise (mk_exn KeyError "'output'"))
          end
      | _ => (st1, Ok Continue)
      end
  end.

(** The [for chunk in agent_executor.stream(...)] loop. *)
Fixpoint for_loop (st : locals) (s : stream) : locals * res unit :=
  match s with
  | Exhausted => (st, Ok tt)
  | Raises e => (st, Raise e)
  | Yield c rest =>
      match loop_body st c with
      | (st', Ok Continue) => for_loop st' rest
      | (st', Ok Break) => (st', Ok tt)
      | (st', Raise e) => (st', Raise e)
      end
  end.

(** The [try]/[except Exception as e] statement around the loop. *)
Definition try_loop (s : stream) : res locals :=
  match for_loop initial s with
  | (st, Ok _) => Ok st
  | (st, Raise e) =>
      if isinstance e Exception then
        Ok {| tool_used := "llm";
              final_result :=
                "An error occurred during agent execution: " ++ exn_str e;
              tool_identified := tool_identified st |}
      else Raise e
  end.

(** The Structured Response: the dictionary handed to [json.dumps]. *)
Record structured_response := mk_response {
  r_query : string;
  r_tool_used : string;
  r_result : string
}.

Definition response_items (r : structured_response) : list (string * string) :=
  [ ("query", r_query r); ("tool_used", r_tool_used r); ("result", r_result r) ].

(** What a generator call amounts to: the values it yields, in order,
    and the exception that ends it, if any. *)
Record generated := mk_generated {
  yielded : list string;
  raised : option exn
}.

(** The response the reporter builds for a query and a run of the
    agent's stream. *)
Definition report (query : string) (s : stream) : res structured_response :=
  st <- try_loop s ;;
  Ok {| r_query := query;
        r_tool_used := tool_used st;
        r_result := final_result st |}.

Definition process_query_with_agent_streaming (query : string) (s : stream)
  : generated :=
  match report query s with
  | Ok r =>
      {| yielded := [dumps_dict (response_items r) ++ String newline ""];
         raised := None |}
  | Raise e => {| yielded := []; raised := Some e |}
  end.

End Agent.

(* ================================================================= *)
(** ** app/agent.py: the tools *)

Module Registry.

(** Programs of the tools: they may request the weather and call the
    model. *)
Inductive eff (A : Type) :=
  | Done (a : A)
  | Http (rq : Weather.request) (k : res Weather.response -> eff A)
  | Chat (rq : LlmTool.chat_request) (k : res string -> eff A).
Arguments Done {A} a.
Arguments Http {A} rq k.
Arguments Chat {A} rq k.

Fixpoint of_weather {A B} (f : A -> B) (p : Weather.io A) : eff B :=
  match p with
  | Weather.Ret a => Done (f a)
  | Weather.HttpGet u ps k =>
      Http (Weather.mk_request u ps) (fun r => of_weather f (k r))
  end.

Fixpoint of_llm {A B} (f : A -> B) (p : LlmTool.io A) : eff B :=
  match p with
  | LlmTool.Ret a => Done (f a)
  | LlmTool.Invoke rq k => Chat rq (fun r => of_llm f (k r))
  end.

(** One external call, as it appears in the log of a run. *)
Inductive call :=
  | HttpCall (rq : Weather.request)
  | ChatCall (rq : LlmTool.chat_request).

Fixpoint run {A} (net : Weather.network) (p : LlmTool.provider) (m : eff A)
  : list call * A :=
  match m with
  | Done a => ([], a)
  | Http rq k =>
      let '(log, a) := run net p (k (net rq)) in (HttpCall rq :: log, a)
  | Chat rq k =>
      let '(log, a) := run net p (k (p rq)) in (ChatCall rq :: log, a)
  end.

(** A [Tool]: its name, its function and its description. *)
Record tool := mk_tool {
  name : string;
  func : string -> eff (res MathTool.value);
  description : string
}.

Definition str_result (r : res string) : res MathTool.value :=
  match r with
  | Ok s => Ok (MathTool.VStr s)
  | Raise e => Raise e
  end.

Section Tools.

(** [repr], as in the weather tool, and the two keys of the
    configuration. *)
Variable py_repr : Weather.json -> string.
Variable weather_key : string.
Variable google_key : string.

Definition weather_tool : tool :=
  {| name := "WeatherTool";
     func := fun input =>
       of_weather str_result
         (Weather.get_weather py_repr weather_key (Some input));
     description := "Fetches current weather information for a given location. Input should be a string representing the location, e.g., 'London' or 'Paris'. Use this tool when the user asks about weather or climate." |}.

Definition math_tool : tool :=
  {| name := "MathTool";
     func := fun input => Done (MathTool.evaluate_math_expression input);
     description := "Performs a basic math operation on a simple arithmetic expression. Input should be a string representing a simple expression like '42 * 7', '10 + 5', '20 / 4'. Use this tool when the user asks for a calculation." |}.

Definition llm_tool : tool :=
  {| name := "LLMTool";
     func := fun input =>
       of_llm str_result (LlmTool.get_llm_response google_key input);
     description := "Answers general or open-ended questions using a language model. Use this tool for any question that is not specifically about weather or math, or when other tools cannot answer." |}.

Definition tools : list tool := [weather_tool; math_tool; llm_tool].

End Tools.

End Registry.

(* ================================================================= *)
(** ** Notions used to state the properties *)

(** *** Arithmetic *)

Definition is_finite (x : float) : bool :=
  match x with
  | S754_zero _ | S754_finite _ _ _ => true
  | _ => false
  end.

(** The rational number a finite float stands for. *)
Definition float_value (x : float) : Q :=
  match x with
  | S754_finite s m (Zneg k) => Qmake (cond_Zopp s (Zpos m)) (2 ^ k)%positive
  | S754_finite s m e => inject_Z (cond_Zopp s (Zpos m * 2 ^ e))
  | _ => 0%Q
  end.

(** The rational number a decimal token denotes, read exactly: sign,
    digits, optional fraction and optional power of ten. *)
Definition decimal_value (tok : string) : option Q :=
  match strip_underscores None (py_strip tok) with
  | None => None
  | Some t =>
      let '(neg, body) := take_sign t in
      match parse_decimal_parts body with
      | Some (m, e10) =>
          Some (inject_Z (cond_Zopp neg (Z.of_N m)) * Qpower (10 # 1) e10)%Q
      | None => None
      end
  end.

(** The operator applied to two rationals; division needs a non-zero
    divisor. *)
Definition exact_apply (op : string) (a b : Q) : option Q :=
  if String.eqb op "+" then Some (a + b)%Q
  else if String.eqb op "-" then Some (a - b)%Q
  else if String.eqb op "*" then Some (a * b)%Q
  else if String.eqb op "/" then
    (if Qeq_bool b 0 then None else Some (a / b)%Q)
  else None.

Definition is_whole (q : Q) : Prop := exists n : Z, (inject_Z n == q)%Q.

(** "Returns exactly [q], typed as an integer when [q] has zero
    fractional part and as a float otherwise". *)
Definition returns_exact (r : res MathTool.value) (q : Q) : Prop :=
  match r with
  | Ok (MathTool.VInt n) => (inject_Z n == q)%Q
  | Ok (MathTool.VFloat x) =>
      is_finite x = true /\ (float_value x == q)%Q /\ ~ is_whole q
  | _ => False
  end.

(** The exactness property at one input string. *)
Definition exact_on (s : string) : Prop :=
  forall p0 op p2 a b q,
    py_split (py_strip s) = [p0; op; p2] ->
    decimal_value p0 = Some a ->
    decimal_value p2 = Some b ->
    exact_apply op a b = Some q ->
    returns_exact (MathTool.evaluate_math_expression s) q.

(** The operator applied in binary64 arithmetic (round to nearest,
    ties to even); division needs a non-zero divisor. *)
Definition ieee_apply (op : string) (x y : float) : option float :=
  if String.eqb op "+" then Some (SFadd prec64 emax64 x y)
  else if String.eqb op "-" then Some (SFsub prec64 emax64 x y)
  else if String.eqb op "*" then Some (SFmul prec64 emax64 x y)
  else if String.eqb op "/" then
    match y with
    | S754_zero _ => None
    | _ => Some (SFdiv prec64 emax64 x y)
    end
  else None.

(** The result is a non-empty message. *)
Definition is_error_string (r : res MathTool.value) : Prop :=
  exists m, r = Ok (MathTool.VStr m) /\ m <> "".

(** The four ways an expression can be ill-formed: not three tokens,
    a token that is not a number, an unknown operator, a division by
    zero. *)
Definition ill_formed (s : string) : Prop :=
  List.length (py_split (py_strip s)) <> 3%nat
  \/ exists p0 op p2,
       py_split (py_strip s) = [p0; op; p2]
       /\ (parse_float p0 = None
           \/ parse_float p2 = None
           \/ ~ In op ["+"; "-"; "*"; "/"]
           \/ (op = "/" /\ exists sg, parse_float p2 = Some (S754_zero sg))).

(** *** Weather *)

(** The key test of [get_weather] passes. *)
Definition key_configured (key : string) : bool :=
  negb (String.eqb key "" || String.eqb key Weather.placeholder_key).

(** [raise_for_status] raises: a 4xx or 5xx status. *)
Definition http_error_status (sc : Z) : bool :=
  (400 <=? sc) && (sc <? 600).



(** The network that answers every request with [r]. *)
Definition answers (r : Weather.response) : Weather.network :=
  fun _ => Ok r.

(** What [get_weather] returns when run against a network. *)
Definition weather_result (py_repr : Weather.json -> string)
    (net : Weather.network) (key : string) (location : option string)
  : res string :=
  snd (Weather.run net (Weather.get_weather py_repr key location)).

(** The requests [get_weather] makes when run against a network. *)
Definition weather_requests (py_repr : Weather.json -> string)
    (net : Weather.network) (key : string) (location : option string)
  : list Weather.request :=
  fst (Weather.run net (Weather.get_weather py_repr key location)).


(** "The empty location behaves as Chicago", on every network. *)
Definition empty_is_chicago (py_repr : Weather.json -> string)
    (key : string) : Prop :=
  forall net,
    Weather.run net (Weather.get_weather py_repr key (Some ""))
    = Weather.run net (Weather.get_weather py_repr key (Some "Chicago")).

(** The one request a lookup makes. *)
Definition the_request (key location : string) : Weather.request :=
  Weather.mk_request Weather.OPENWEATHER_BASE_URL
    [("q", location); ("appid", key); ("units", "metric")].


(** Sample answers and a sample [repr], for the examples. *)


(** A 200 answer whose body carries the same error. *)
Definition soft_not_found : Weather.response :=
  Weather.mk_response 200 "OK"
    "http://api.openweathermap.org/data/2.5/weather?q=Atlantis&appid=k&units=metric"
    (Ok (Weather.JDict [("cod", Weather.JStr "404");
                        ("message", Weather.JStr "city not found")])).

Definition no_repr (v : Weather.json) : string := "".

(** *** Result reporter *)

(** The public tag of a tool name. *)
Definition public_tag (name : string) : option string :=
  if String.eqb name "WeatherTool" then Some "weather"
  else if String.eqb name "MathTool" then Some "math"
  else if String.eqb name "LLMTool" then Some "llm"
  else None.

(** The Action event a chunk carries, by its tool name. *)
Definition action_tool (c : Agent.chunk) : option string :=
  match Agent.actions c with
  | Some (Agent.ActionsList (Agent.AgentAction name _ :: _)) => Some name
  | _ => None
  end.

(** The Final Answer a chunk carries. *)
Definition final_answer (c : Agent.chunk) : option string :=
  match Agent.output c with
  | Some out => Some out
  | None =>
      match Agent.agent c with
      | Some (Agent.AgentFinish rv) => dict_get rv "output"
      | _ => None
      end
  end.

(** An [AgentFinish] under ["agent"] without an ["output"] entry, in
    a chunk without an ["output"] key. *)
Definition broken_finish (c : Agent.chunk) : bool :=
  match Agent.output c, Agent.agent c with
  | None, Some (Agent.AgentFinish rv) =>
      match dict_get rv "output" with
      | None => true
      | Some _ => false
      end
  | _, _ => false
  end.

(** The chunks of a run that the reporter reads: up to and including
    the first one that carries a Final Answer or makes the loop body
    raise. *)
Fixpoint observed (s : Agent.stream) : list Agent.chunk :=
  match s with
  | Agent.Yield c rest =>
      match final_answer c with
      | Some _ => [c]
      | None => if broken_finish c then [c] else c :: observed rest
      end
  | _ => []
  end.

(** The exception that ends the loop, if one does. *)
Fixpoint loop_error (s : Agent.stream) : option exn :=
  match s with
  | Agent.Exhausted => None
  | Agent.Raises e => Some e
  | Agent.Yield c rest =>
      match final_answer c with
      | Some _ => None
      | None =>
          if broken_finish c then Some (mk_exn KeyError "'output'")
          else loop_error rest
      end
  end.

(** The tool name of the first Action event among some chunks. *)
Fixpoint first_action (cs : list Agent.chunk) : option string :=
  match cs with
  | [] => None
  | c :: cs' =>
      match action_tool c with
      | Some name => Some name
      | None => first_action cs'
      end
  end.

(** The Final Answer among some chunks. *)
Fixpoint first_answer (cs : list Agent.chunk) : option string :=
  match cs with
  | [] => None
  | c :: cs' =>
      match final_answer c with
      | Some a => Some a
      | None => first_answer cs'
      end
  end.

(** The tag for the first Action event among some chunks; "llm" when
    there is none or its tool name has no tag. *)
Definition tag_of_first_action (cs : list Agent.chunk) : string :=
  match first_action cs with
  | Some name =>
      match public_tag name with
      | Some t => t
      | None => "llm"
      end
  | None => "llm"
  end.

(** The locals after the [if "actions" in chunk] statement has run on
    each of some chunks. *)
Definition track (st : Agent.locals) (cs : list Agent.chunk) : Agent.locals :=
  fold_left Agent.on_actions cs st.

(** "tool_used is the tag of the first Action event, and llm without
    one", for the run of [s] on [query]. *)
Definition first_tool_reported (query : string) (s : Agent.stream) : Prop :=
  forall r,
    Agent.report query s = Ok r ->
    (forall name t,
        first_action (observed s) = Some name ->
        public_tag name = Some t ->
        Agent.r_tool_used r = t)
    /\ (first_action (observed s) = None -> Agent.r_tool_used r = "llm").

(** "After an exception the result is a non-empty message and
    tool_used is what it was when the exception occurred." *)
Definition tool_kept_on_error (query : string) (s : Agent.stream) : Prop :=
  forall e r,
    snd (Agent.for_loop Agent.initial s) = Raise e ->
    Agent.report query s = Ok r ->
    Agent.r_result r <> ""
    /\ Agent.r_tool_used r
       = Agent.tool_used (fst (Agent.for_loop Agent.initial s)).

(** Sample chunks. *)
Definition action_chunk (tool : string) : Agent.chunk :=
  Agent.mk_chunk
    (Some (Agent.ActionsList [Agent.AgentAction tool "input"])) None None.

Definition output_chunk (out : string) : Agent.chunk :=
  Agent.mk_chunk None (Some out) None.



(** *** Notions for the further properties *)

(** *** Integers among the doubles *)

(** The double that is exactly the integer [v], for [|v| < 2^53]: the
    mantissa on 53 bits and the matching exponent. *)
Definition float_of_int (v : Z) : float :=
  match v with
  | Z0 => S754_zero false
  | Zpos p =>
      S754_finite false
        (Z.to_pos (Zpos p * 2 ^ (53 - Zpos (digits2_pos p))))
        (Zpos (digits2_pos p) - 53)
  | Zneg p =>
      S754_finite true
        (Z.to_pos (Zpos p * 2 ^ (53 - Zpos (digits2_pos p))))
        (Zpos (digits2_pos p) - 53)
  end.

Definition exact_record (m : Z) : shr_record :=
  {| shr_m := m; shr_r := false; shr_s := false |}.

Fixpoint all_digits (s : string) : bool :=
  match s with
  | EmptyString => true
  | String c s' => is_digit c && all_digits s'
  end.

(** The operator on integers; a division must leave no remainder. *)
Definition int_apply (op : string) (a b : Z) : option Z :=
  if String.eqb op "+" then Some (a + b)
  else if String.eqb op "-" then Some (a - b)
  else if String.eqb op "*" then Some (a * b)
  else if String.eqb op "/" then
    (if (b =? 0) || negb (a mod b =? 0) then None else Some (a / b))
  else None.

(** *** Tokens and blanks *)

Fixpoint no_space (s : string) : bool :=
  match s with
  | EmptyString => true
  | String c s' => negb (isspace c) && no_space s'
  end.

Fixpoint all_space (s : string) : bool :=
  match s with
  | EmptyString => true
  | String c s' => isspace c && all_space s'
  end.

(** A token: not empty and without white space. *)
Definition is_token (s : string) : Prop :=
  s <> EmptyString /\ no_space s = true.

(** A separator: a non-empty run of white space. *)
Definition is_blank (s : string) : Prop :=
  s <> EmptyString /\ all_space s = true.


(** *** Weather, the model and the tools *)

(** [d.get(key, default)] on the items of a dictionary. *)
Definition field (d : list (string * Weather.json)) (key : string)
    (default : Weather.json) : Weather.json :=
  match dict_get d key with
  | Some v => v
  | None => default
  end.

Definition is_dict (v : Weather.json) : bool :=
  match v with
  | Weather.JDict _ => true
  | _ => false
  end.

(** A list whose first element is a dictionary. *)
Definition starts_with_dict (v : Weather.json) : bool :=
  match v with
  | Weather.JList (x :: _) => is_dict x
  | _ => false
  end.

(** What [get_llm_response] returns, and the calls it makes, when run
    against a provider. *)
Definition llm_result (p : LlmTool.provider) (key prompt : string)
  : res string :=
  snd (LlmTool.run p (LlmTool.get_llm_response key prompt)).

Definition llm_calls (p : LlmTool.provider) (key prompt : string)
  : list LlmTool.chat_request :=
  fst (LlmTool.run p (LlmTool.get_llm_response key prompt)).

Definition llm_key_configured (key : string) : bool :=
  negb (String.eqb key "" || String.eqb key LlmTool.placeholder_key).

(** The one call a prompt gives rise to. *)
Definition the_chat_request (key prompt : string) : LlmTool.chat_request :=
  {| LlmTool.model := "gemini-2.5-flash";
     LlmTool.google_api_key := key;
     LlmTool.temperature := 0;
     LlmTool.messages := [LlmTool.HumanMessage prompt] |}.


(** *** Streams *)

(** The stream that yields the chunks [cs] and goes on as [tail]. *)
Fixpoint stream_of (cs : list Agent.chunk) (tail : Agent.stream)
  : Agent.stream :=
  match cs with
  | [] => tail
  | c :: cs' => Agent.Yield c (stream_of cs' tail)
  end.

(** A chunk on which the loop goes on: no Final Answer and no broken
    [AgentFinish]. *)
Definition intermediate (c : Agent.chunk) : bool :=
  match final_answer c with
  | Some _ => false
  | None => negb (broken_finish c)
  end.




(** *** Samples for the further properties *)

Definition paris_body : list (string * Weather.json) :=
  [ ("cod", Weather.JInt 200);
    ("main", Weather.JDict [("temp", Weather.JInt 21)]);
    ("weather",
     Weather.JList [Weather.JDict [("description", Weather.JStr "clear sky")]]);
    ("name", Weather.JStr "Paris");
    ("sys", Weather.JDict [("country", Weather.JStr "FR")]) ].

Definition paris_ok : Weather.response :=
  Weather.mk_response 200 "OK"
    "http://api.openweathermap.org/data/2.5/weather?q=Paris&appid=k&units=metric"
    (Ok (Weather.JDict paris_body)).

(** A body with [cod] 200 whose [main] is null. *)
Definition null_main_ok : Weather.response :=
  Weather.mk_response 200 "OK"
    "http://api.openweathermap.org/data/2.5/weather?q=Paris&appid=k&units=metric"
    (Ok (Weather.JDict
           [ ("cod", Weather.JInt 200);
             ("main", Weather.JNull);
             ("weather",
              Weather.JList
                [Weather.JDict [("description", Weather.JStr "rain")]]);
             ("name", Weather.JStr "Paris");
             ("sys", Weather.JDict [("country", Weather.JStr "FR")]) ])).

Definition list_body : Weather.response :=
  Weather.mk_response 200 "OK"
    "http://api.openweathermap.org/data/2.5/weather?q=Paris&appid=k&units=metric"
    (Ok (Weather.JList [])).

Definition unreachable : Weather.network :=
  fun _ => Raise (mk_exn ConnectionError "Connection refused").

Definition echo : LlmTool.provider :=
  fun rq =>
    match LlmTool.messages rq with
    | [LlmTool.HumanMessage prompt] => Ok ("You said: " ++ prompt)
    | _ => Raise (mk_exn ValueError "no prompt")
    end.

Definition steps_chunk : Agent.chunk := Agent.mk_chunk None None None.


(* ================================================================= *)
(** ** Exceptions: every handler list that ends in [Exception] is total *)

Lemma isinstance_Exception (e : exn) : isinstance e Exception = true.
Proof. destruct e as [[] m]; reflexivity. Qed.

(* ================================================================= *)
(** ** The arithmetic evaluator *)

Section MathToolFacts.

Import MathTool.

(** Whatever the [try] block raises, one of the three clauses turns
    it into a message. *)
Lemma handlers_catch (e : exn) :
  dispatch e handlers = Ok (VStr msg_numbers)
  \/ dispatch e handlers = Ok (VStr msg_zero)
  \/ dispatch e handlers = Ok (VStr (msg_unexpected e)).
Proof.
  unfold handlers, dispatch.
  destruct (isinstance e ValueError); [now left|].
  destruct (isinstance e ZeroDivisionError); [now right; left|].
  rewrite isinstance_Exception. now right; right.
Qed.

Lemma evaluate_three (s p0 p1 p2 : string) :
  py_split (py_strip s) = [p0; p1; p2] ->
  evaluate_math_expression s = try_except (try_body p0 p1 p2) handlers.
Proof. unfold evaluate_math_expression. now intros ->. Qed.

Lemma evaluate_not_three (s : string) :
  List.length (py_split (py_strip s)) <> 3%nat ->
  evaluate_math_expression s = Ok (VStr msg_format).
Proof.
  unfold evaluate_math_expression.
  destruct (py_split (py_strip s)) as [|a [|b [|c [|d l]]]]; simpl; intros H;
    try reflexivity.
  now elim H.
Qed.

Lemma py_float_Some (s : string) (x : float) :
  parse_float s = Some x -> py_float s = Ok x.
Proof. unfold py_float. now intros ->. Qed.

Lemma py_float_None (s : string) :
  parse_float s = None ->
  py_float s = Raise (mk_exn ValueError "could not convert string to float").
Proof. unfold py_float. now intros ->. Qed.

(** *** Integers among the floats *)

Lemma pos_pow_Z (k : positive) : Zpos (2 ^ k) = 2 ^ Zpos k.
Proof. now rewrite Pos2Z.inj_pow. Qed.

(** [int(x)] succeeds on a finite float, and [x == int(x)] holds
    exactly when the value of [x] is an integer, which is then
    [int(x)]. *)
Lemma int_of_finite (x : float) :
  is_finite x = true ->
  exists n0, int_of_float x = Ok n0
    /\ (forall n, (inject_Z n == float_value x)%Q -> n = n0 /\ float_eq_int x n0 = true)
    /\ (float_eq_int x n0 = true -> (inject_Z n0 == float_value x)%Q).
Proof.
  destruct x as [s|s| |s m e]; try discriminate; intros _.
  - exists 0. split; [reflexivity|]. split.
    + intros n H. unfold Qeq in H; simpl in H. split; [lia | reflexivity].
    + reflexivity.
  - destruct e as [|k|k];
      unfold int_of_float, float_eq_int, float_value, Qeq;
      cbn [inject_Z Qnum Qden]; eexists; (split; [reflexivity|]).
    + rewrite Z.shiftl_0_r, Z.pow_0_r. split.
      * intros n H. rewrite !Z.mul_1_r in H. subst n.
        rewrite Z.mul_1_r. split; [reflexivity | apply Z.eqb_refl].
      * intros _. now rewrite !Z.mul_1_r.
    + rewrite Z.shiftl_mul_pow2 by lia. split.
      * intros n H. rewrite !Z.mul_1_r in H. subst n.
        split; [reflexivity | apply Z.eqb_refl].
      * reflexivity.
    + rewrite Z.shiftr_div_pow2, pos_pow_Z by lia.
      assert (P : 0 < 2 ^ Zpos k) by (apply Z.pow_pos_nonneg; lia).
      split.
      * intros n H. rewrite Z.mul_1_r in H.
        assert (E : n = cond_Zopp s (Zpos m / 2 ^ Zpos k)).
        { destruct s; cbn [cond_Zopp] in *.
          - assert (H0 : Zpos m = (- n) * 2 ^ Zpos k) by lia.
            rewrite H0, Z.div_mul by lia. lia.
          - rewrite <- H, Z.div_mul by lia. reflexivity. }
        split; [exact E|]. apply Z.eqb_eq. rewrite <- E. lia.
      * intros H. apply Z.eqb_eq in H. lia.
Qed.


(** The [ops] dictionary holds the four binary64 operations. *)
Lemma ops_ieee (op : string) (x y r : float) :
  ieee_apply op x y = Some r ->
  exists f, dict_get ops op = Some f /\ f x y = Ok r.
Proof.
  unfold ieee_apply, ops, dict_get.
  rewrite (String.eqb_sym "+" op), (String.eqb_sym "-" op),
    (String.eqb_sym "*" op), (String.eqb_sym "/" op).
  destruct (String.eqb op "+"); [intros [= <-]; eauto|].
  destruct (String.eqb op "-"); [intros [= <-]; eauto|].
  destruct (String.eqb op "*"); [intros [= <-]; eauto|].
  destruct (String.eqb op "/"); [|discriminate].
  destruct y; try discriminate; intros [= <-]; eauto.
Qed.

Lemma ops_unknown (op : string) :
  ~ In op ["+"; "-"; "*"; "/"] -> dict_get ops op = None.
Proof.
  intros H. unfold ops, dict_get.
  destruct (String.eqb_spec "+" op) as [<-|_]; [elim H; simpl; tauto|].
  destruct (String.eqb_spec "-" op) as [<-|_]; [elim H; simpl; tauto|].
  destruct (String.eqb_spec "*" op) as [<-|_]; [elim H; simpl; tauto|].
  destruct (String.eqb_spec "/" op) as [<-|_]; [elim H; simpl; tauto|].
  reflexivity.
Qed.

(** The [try] block on two numbers and a known operator whose result
    is finite. *)
Lemma try_body_finite (p0 op p2 : string) (x y r : float) :
  parse_float p0 = Some x ->
  parse_float p2 = Some y ->
  ieee_apply op x y = Some r ->
  is_finite r = true ->
  (forall n, (inject_Z n == float_value r)%Q -> try_body p0 op p2 = Ok (VInt n))
  /\ (~ is_whole (float_value r) -> try_body p0 op p2 = Ok (VFloat r)).
Proof.
  intros H0 H2 Hop Hfin.
  destruct (ops_ieee _ _ _ _ Hop) as (f & Hf & Hr).
  destruct (int_of_finite r Hfin) as (n0 & Hint & Hwhole & Heq).
  unfold try_body.
  rewrite (py_float_Some _ _ H0), (py_float_Some _ _ H2). cbn [bind].
  rewrite Hf, Hr. cbn [bind]. rewrite Hint. cbn [bind].
  split.
  - intros n Hn. destruct (Hwhole n Hn) as [-> ->]. reflexivity.
  - intros Hnot. destruct (float_eq_int r n0) eqn:E; [|reflexivity].
    elim Hnot. exists n0. now apply Heq.
Qed.

(** The messages are not empty. *)
Lemma msg_unsupported_nonempty (op : string) : msg_unsupported op <> "".
Proof. discriminate. Qed.

Lemma msg_unexpected_nonempty (e : exn) : msg_unexpected e <> "".
Proof. discriminate. Qed.

Lemma dispatch_error_string (e : exn) : is_error_string (dispatch e handlers).
Proof.
  destruct (handlers_catch e) as [H|[H|H]]; rewrite H; eexists;
    (split; [reflexivity|]); try discriminate.
Qed.

(** The [try] statement never lets an exception through. *)
Lemma try_statement_total (p0 p1 p2 : string) :
  exists v, try_except (try_body p0 p1 p2) handlers = Ok v.
Proof.
  destruct (try_body p0 p1 p2) as [v|e]; unfold try_except; [eauto|].
  destruct (handlers_catch e) as [H|[H|H]]; rewrite H; eauto.
Qed.

Lemma try_bad_number (p0 p1 p2 : string) :
  parse_float p0 = None \/ parse_float p2 = None ->
  try_except (try_body p0 p1 p2) handlers = Ok (VStr msg_numbers).
Proof.
  intros H. unfold try_body.
  destruct (parse_float p0) as [x|] eqn:E0.
  - destruct H as [H|H]; [discriminate|].
    rewrite (py_float_Some _ _ E0), (py_float_None _ H). reflexivity.
  - rewrite (py_float_None _ E0). reflexivity.
Qed.

Lemma try_unknown_operator (p0 p1 p2 : string) (x y : float) :
  parse_float p0 = Some x ->
  parse_float p2 = Some y ->
  ~ In p1 ["+"; "-"; "*"; "/"] ->
  try_except (try_body p0 p1 p2) handlers = Ok (VStr (msg_unsupported p1)).
Proof.
  intros H0 H2 Hop. unfold try_body.
  rewrite (py_float_Some _ _ H0), (py_float_Some _ _ H2). cbn [bind].
  now rewrite (ops_unknown _ Hop).
Qed.

Lemma try_zero_divisor (p0 p2 : string) (x : float) (sg : bool) :
  parse_float p0 = Some x ->
  parse_float p2 = Some (S754_zero sg) ->
  try_except (try_body p0 "/" p2) handlers = Ok (VStr msg_zero).
Proof.
  intros H0 H2. unfold try_body.
  rewrite (py_float_Some _ _ H0), (py_float_Some _ _ H2). reflexivity.
Qed.

Lemma ill_formed_error_string (s : string) :
  ill_formed s -> is_error_string (evaluate_math_expression s).
Proof.
  intros [H|(p0 & op & p2 & Hp & H)].
  - rewrite (evaluate_not_three _ H). eexists; split; [reflexivity|discriminate].
  - rewrite (evaluate_three _ _ _ _ Hp).
    destruct (parse_float p0) as [x|] eqn:E0;
      [|rewrite try_bad_number by (now left);
        eexists; split; [reflexivity|discriminate]].
    destruct (parse_float p2) as [y|] eqn:E2;
      [|rewrite try_bad_number by (now right);
        eexists; split; [reflexivity|discriminate]].
    destruct H as [H|[H|[H|(-> & sg & H)]]]; try discriminate.
    + rewrite (try_unknown_operator _ _ _ _ _ E0 E2 H).
      eexists; split; [reflexivity|discriminate].
    + injection H as ->. rewrite (try_zero_divisor _ _ _ _ E0 E2).
      eexists; split; [reflexivity|discriminate].
Qed.

(** C3 (as amended).  On three tokens of which the outer two are
    numbers, with one of the operators +, -, *, / and no division by
    zero, [evaluate_math_expression] computes in binary64 arithmetic:
    when the double [r] that the operator gives on the doubles nearest
    to the two tokens is finite, the result is the integer equal to [r]
    if [r] has zero fractional part, and the float [r] otherwise.
    "10 + 5" gives the integer 15, "10 / 4" the float 2.5 and "20 / 4"
    the integer 5. *)
Theorem evaluate_rounded_result :
  (forall s p0 op p2 x y r,
      py_split (py_strip s) = [p0; op; p2] ->
      parse_float p0 = Some x ->
      parse_float p2 = Some y ->
      ieee_apply op x y = Some r ->
      is_finite r = true ->
      (forall n, (inject_Z n == float_value r)%Q ->
                 evaluate_math_expression s = Ok (VInt n))
      /\ (~ is_whole (float_value r) ->
          evaluate_math_expression s = Ok (VFloat r)))
  /\ evaluate_math_expression "10 + 5" = Ok (VInt 15)
  /\ (exists x, evaluate_math_expression "10 / 4" = Ok (VFloat x)
                /\ (float_value x == 5 # 2)%Q)
  /\ evaluate_math_expression "20 / 4" = Ok (VInt 5).
Proof.
  split; [|split; [|split]].
  - intros s p0 op p2 x y r Hp H0 H2 Hop Hfin.
    rewrite (evaluate_three _ _ _ _ Hp).
    destruct (try_body_finite _ _ _ _ _ _ H0 H2 Hop Hfin) as [Hint Hfl].
    split.
    + intros n Hn. now rewrite (Hint n Hn).
    + intros Hn. now rewrite (Hfl Hn).
  - vm_compute. reflexivity.
  - eexists. split; [vm_compute; reflexivity|]. vm_compute. reflexivity.
  - vm_compute. reflexivity.
Qed.

Lemma evaluate_rounded_result_witness :
  evaluate_math_expression "7 / 2"
  = Ok (VFloat (S754_finite false 7881299347898368 (-51))).
Proof.
  apply (proj1 evaluate_rounded_result "7 / 2" "7" "/" "2"
           (S754_finite false 7881299347898368 (-50))
           (S754_finite false 4503599627370496 (-51))
           (S754_finite false 7881299347898368 (-51)));
    try (vm_compute; reflexivity).
  intros [n H]. unfold Qeq in H. simpl in H. lia.
Defined.

(** C3 (as stated) fails: the sum of 9007199254740993 and 0 comes out
    as 9007199254740992, and the product of 1e200 by itself as a
    message, not a number. *)
Lemma exact_on_fails :
  ~ exact_on "9007199254740993 + 0" /\ ~ exact_on "1e200 * 1e200".
Proof.
  split; intros H.
  - specialize (H "9007199254740993" "+" "0").
    vm_compute in H.
    specialize (H _ _ _ eq_refl eq_refl eq_refl eq_refl).
    vm_compute in H. discriminate H.
  - specialize (H "1e200" "*" "1e200").
    vm_compute in H.
    exact (H _ _ _ eq_refl eq_refl eq_refl eq_refl).
Qed.

(** The doubles involved in the two inputs above. *)
Example evaluate_rounds_operand :
  evaluate_math_expression "9007199254740993 + 0" = Ok (VInt 9007199254740992).
Proof. vm_compute. reflexivity. Qed.

Example evaluate_overflow :
  evaluate_math_expression "1e200 * 1e200"
  = Ok (VStr "An unexpected error occurred during math evaluation: cannot convert float infinity to integer").
Proof. vm_compute. reflexivity. Qed.

Example evaluate_rounds_sum :
  evaluate_math_expression "0.1 + 0.2"
  = Ok (VFloat (S754_finite false 5404319552844596 (-54)))
  /\ ~ (float_value (S754_finite false 5404319552844596 (-54)) == 3 # 10)%Q.
Proof.
  split; [vm_compute; reflexivity|]. unfold Qeq. vm_compute. discriminate.
Qed.

(** C4.  [evaluate_math_expression] never raises: it returns a value
    for every input string.  When the expression does not have three
    tokens, when one of the outer tokens is not a number, when the
    operator is not one of +, -, *, /, or when the divisor of a
    division is zero, that value is a non-empty message; "7 / 0" gives
    the division-by-zero message, "abc + 2" the invalid-numbers message
    and "5 ^ 2" the unsupported-operator message. *)
Theorem evaluate_never_raises :
  (forall s, exists v, evaluate_math_expression s = Ok v)
  /\ (forall s, ill_formed s -> is_error_string (evaluate_math_expression s))
  /\ evaluate_math_expression "7 / 0" = Ok (VStr "Division by zero is not allowed.")
  /\ evaluate_math_expression "abc + 2"
     = Ok (VStr "Invalid numbers in expression. Please ensure numbers are valid (e.g., '10', '5.5').")
  /\ evaluate_math_expression "5 ^ 2"
     = Ok (VStr "Unsupported operator: '^'. Only +, -, *, / are supported.").
Proof.
  split; [|split; [|split; [|split]]]; try (vm_compute; reflexivity).
  - intros s. unfold evaluate_math_expression.
    destruct (py_split (py_strip s)) as [|a [|b [|c [|d l]]]]; eauto.
    apply try_statement_total.
  - apply ill_formed_error_string.
Qed.

Lemma evaluate_never_raises_witness :
  is_error_string (evaluate_math_expression "12 plus 3 4").
Proof.
  apply (proj1 (proj2 evaluate_never_raises)).
  left. vm_compute. discriminate.
Defined.

End MathToolFacts.

(* ================================================================= *)
(** ** The weather lookup *)




Section WeatherFacts.

Import Weather.

Variable py_repr : json -> string.

Lemma handlers_total (location : string) (e : exn) :
  dispatch e (handlers location) = Ok (msg_network location e)
  \/ dispatch e (handlers location) = Ok (msg_unexpected e).
Proof.
  unfold handlers, dispatch.
  destruct (isinstance e RequestException); [now left|].
  rewrite isinstance_Exception. now right.
Qed.

Lemma get_weather_configured (key : string) (location : option string) :
  key_configured key = true ->
  get_weather py_repr key location
  = let l := match location with Some l => l | None => "Chicago" end in
    HttpGet OPENWEATHER_BASE_URL [("q", l); ("appid", key); ("units", "metric")]
      (fun got => Ret (try_except (try_body py_repr l got) (handlers l))).
Proof.
  unfold key_configured, get_weather. intros H.
  apply negb_true_iff in H. now rewrite H.
Qed.

Lemma get_weather_unconfigured (key : string) (location : option string) :
  key_configured key = false ->
  get_weather py_repr key location = Ret (Ok msg_key).
Proof.
  unfold key_configured, get_weather. intros H.
  apply negb_false_iff in H. now rewrite H.
Qed.

(** With a key, the tool makes one request and reports on its
    outcome. *)
Lemma weather_result_configured (net : network) (key : string)
    (location : option string) :
  key_configured key = true ->
  let l := match location with Some l => l | None => "Chicago" end in
  weather_result py_repr net key location
  = try_except (try_body py_repr l (net (the_request key l))) (handlers l)
  /\ weather_requests py_repr net key location = [the_request key l].
Proof.
  intros K. unfold weather_result, weather_requests.
  rewrite (get_weather_configured _ _ K). split; reflexivity.
Qed.

(** The tool never raises, whatever the network does. *)
Lemma get_weather_total (net : network) (key : string) (location : option string) :
  exists out, weather_result py_repr net key location = Ok out.
Proof.
  destruct (key_configured key) eqn:K.
  - rewrite (proj1 (weather_result_configured net _ location K)).
    set (l := match location with Some l => l | None => "Chicago" end).
    destruct (try_body py_repr l _) as [out|e]; unfold try_except; [eauto|].
    destruct (handlers_total l e) as [H|H]; rewrite H; eauto.
  - unfold weather_result. rewrite (get_weather_unconfigured _ _ K). cbn. eauto.
Qed.


Lemma raise_for_status_ok (r : response) :
  http_error_status (status_code r) = false ->
  raise_for_status r = Ok tt.
Proof.
  unfold http_error_status, raise_for_status. intros H.
  destruct (400 <=? status_code r) eqn:E4; cbn [andb] in *.
  - rewrite H.
    assert (H5 : (status_code r <? 500) = false) by lia.
    rewrite H5. now rewrite andb_false_r.
  - assert (H5 : (500 <=? status_code r) = false) by lia.
    now rewrite H5.
Qed.





(** C6 (as amended).  A call without the location argument is the
    call with "Chicago".  An empty location is not replaced: with a key
    configured, the request goes out with an empty [q]. *)
Theorem get_weather_default_location (key : string) :
  get_weather py_repr key None = get_weather py_repr key (Some "Chicago")
  /\ (key_configured key = true ->
      forall net,
        weather_requests py_repr net key (Some "") = [the_request key ""]
        /\ weather_requests py_repr net key None = [the_request key "Chicago"]).
Proof.
  split; [reflexivity|].
  intros K net. split.
  - apply (proj2 (weather_result_configured net key (Some "") K)).
  - apply (proj2 (weather_result_configured net key None K)).
Qed.

(** C7.  When the key is unset, or set to the placeholder, the
    lookup of any location is the program that returns the
    key-configuration notice at once: it makes no request, on any
    network. *)
Theorem get_weather_without_key (env : option string) (location : option string) :
  env = None \/ env = Some placeholder_key ->
  get_weather py_repr (OPENWEATHER_API_KEY env) location = Ret (Ok msg_key)
  /\ (forall net,
         weather_requests py_repr net (OPENWEATHER_API_KEY env) location = []
         /\ weather_result py_repr net (OPENWEATHER_API_KEY env) location
            = Ok msg_key)
  /\ contains "API key not configured" msg_key = true.
Proof.
  intros H.
  assert (E : get_weather py_repr (OPENWEATHER_API_KEY env) location
              = Ret (Ok msg_key)).
  { apply get_weather_unconfigured. destruct H as [-> | ->]; reflexivity. }
  split; [exact E|]. split; [|reflexivity].
  intros net. unfold weather_requests, weather_result. rewrite E.
  split; reflexivity.
Qed.

End WeatherFacts.



(** C6 (as stated) fails: with a key, the lookup of the empty
    location asks for [q=] and not for [q=Chicago]. *)
Lemma empty_location_not_chicago :
  ~ (exists py_repr, empty_is_chicago py_repr "k").
Proof.
  intros (rp & H).
  specialize (H (fun _ => Raise (mk_exn ConnectionError "unreachable"))).
  vm_compute in H. discriminate H.
Qed.

Lemma get_weather_default_location_witness :
  weather_requests no_repr (answers soft_not_found) "k" (Some "")
  = [the_request "k" ""]
  /\ weather_requests no_repr (answers soft_not_found) "k" None
     = [the_request "k" "Chicago"].
Proof.
  apply (proj2 (get_weather_default_location no_repr "k") eq_refl
           (answers soft_not_found)).
Defined.

Lemma get_weather_without_key_witness :
  Weather.get_weather no_repr (Weather.OPENWEATHER_API_KEY None) (Some "Paris")
  = Weather.Ret (Ok Weather.msg_key).
Proof.
  apply (get_weather_without_key no_repr None (Some "Paris")). now left.
Defined.

(* ================================================================= *)
(** ** The JSON line *)


Lemma string_app_assoc (a b c : string) : ((a ++ b) ++ c = a ++ (b ++ c))%string.
Proof. induction a as [|x a IH]; simpl; [reflexivity|]. now rewrite IH. Qed.








Lemma length_app (a b : string) :
  String.length (a ++ b) = (String.length a + String.length b)%nat.
Proof. induction a as [|c a IH]; simpl; [reflexivity|]. now rewrite IH. Qed.





(* ================================================================= *)
(** ** The result reporter *)

Section AgentFacts.

Import Agent.

(** *** The loop in closed form *)

Lemma on_actions_spec (st : locals) (c : chunk) :
  on_actions st c
  = match action_tool c with
    | None => st
    | Some name =>
        if tool_identified st then st
        else {| tool_used := match public_tag name with
                             | Some t => t
                             | None => tool_used st
                             end;
                final_result := final_result st;
                tool_identified := true |}
    end.
Proof.
  unfold on_actions, action_tool, public_tag.
  destruct (actions c) as [[[|[name inp|] l]|]|]; try reflexivity.
  destruct (tool_identified st); cbn [negb]; [reflexivity|].
  destruct (String.eqb name "WeatherTool"); [reflexivity|].
  destruct (String.eqb name "MathTool"); [reflexivity|].
  destruct (String.eqb name "LLMTool"); reflexivity.
Qed.

(** Once a tool is identified, no chunk changes [tool_used]. *)
Lemma on_actions_identified (st : locals) (c : chunk) :
  tool_identified st = true -> on_actions st c = st.
Proof.
  intros H. rewrite on_actions_spec, H. now destruct (action_tool c).
Qed.

Lemma loop_body_spec (st : locals) (c : chunk) :
  loop_body st c
  = match final_answer c with
    | Some a => (set_result (on_actions st c) a, Ok Break)
    | None =>
        if broken_finish c
        then (on_actions st c, Raise (mk_exn KeyError "'output'"))
        else (on_actions st c, Ok Continue)
    end.
Proof.
  unfold loop_body, final_answer, broken_finish.
  destruct (output c) as [out|]; [reflexivity|].
  destruct (agent c) as [[rv|]|]; try reflexivity.
  now destruct (dict_get rv "output").
Qed.

Lemma loop_body_identified (st : locals) (c : chunk) :
  tool_identified st = true ->
  tool_used (fst (loop_body st c)) = tool_used st
  /\ tool_identified (fst (loop_body st c)) = true.
Proof.
  intros H. rewrite loop_body_spec, (on_actions_identified _ _ H).
  destruct (final_answer c); [|destruct (broken_finish c)]; now cbn.
Qed.

Lemma track_cons (st : locals) (c : chunk) (cs : list chunk) :
  track st (c :: cs) = track (on_actions st c) cs.
Proof. reflexivity. Qed.

Lemma track_identified (cs : list chunk) (st : locals) :
  tool_identified st = true -> track st cs = st.
Proof.
  revert st. induction cs as [|c cs IH]; intros st H; [reflexivity|].
  rewrite track_cons, (on_actions_identified _ _ H). now apply IH.
Qed.

Lemma track_tool (cs : list chunk) (st : locals) :
  tool_identified st = false ->
  tool_used (track st cs)
  = match first_action cs with
    | Some name =>
        match public_tag name with
        | Some t => t
        | None => tool_used st
        end
    | None => tool_used st
    end.
Proof.
  revert st. induction cs as [|c cs IH]; intros st H; [reflexivity|].
  rewrite track_cons. cbn [first_action].
  rewrite on_actions_spec, H.
  destruct (action_tool c) as [name|]; [|now apply IH].
  now rewrite (track_identified cs) by reflexivity.
Qed.

(** What the [for] loop does, in terms of the chunks it reads. *)
Lemma for_loop_spec (s : stream) (st : locals) :
  tool_used (fst (for_loop st s)) = tool_used (track st (observed s))
  /\ final_result (fst (for_loop st s))
     = match first_answer (observed s) with
       | Some a => a
       | None => final_result st
       end
  /\ snd (for_loop st s)
     = match loop_error s with
       | Some e => Raise e
       | None => Ok tt
       end.
Proof.
  revert st. induction s as [| e | c rest IH]; intros st; cbn [for_loop].
  - now cbn.
  - now cbn.
  - rewrite loop_body_spec. cbn [observed loop_error].
    destruct (final_answer c) as [a|] eqn:F.
    + cbn [first_answer]. rewrite F. now cbn.
    + destruct (broken_finish c).
      * cbn [first_answer]. rewrite F. cbn [fst snd]. repeat split.
        rewrite on_actions_spec. destruct (action_tool c); [|reflexivity].
        now destruct (tool_identified st).
      * destruct (IH (on_actions st c)) as (T & R & E).
        rewrite track_cons. cbn [first_answer]. rewrite F.
        rewrite T, R, E. repeat split.
        destruct (first_answer (observed rest)); [reflexivity|].
        rewrite on_actions_spec. destruct (action_tool c); [|reflexivity].
        now destruct (tool_identified st).
Qed.


(** The response, in terms of the chunks read and of how the loop
    ends. *)
Lemma report_spec (query : string) (s : stream) :
  report query s
  = Ok {| r_query := query;
          r_tool_used :=
            match loop_error s with
            | Some _ => "llm"
            | None => tag_of_first_action (observed s)
            end;
          r_result :=
            match loop_error s with
            | Some e => "An error occurred during agent execution: " ++ exn_str e
            | None =>
                match first_answer (observed s) with
                | Some a => a
                | None => final_result initial
                end
            end |}.
Proof.
  unfold report, try_loop.
  destruct (for_loop_spec s initial) as (T & R & E).
  destruct (for_loop initial s) as [st r]. cbn [fst snd] in *. subst r.
  destruct (loop_error s) as [e|].
  - rewrite isinstance_Exception. reflexivity.
  - cbn [bind]. rewrite T, R, track_tool by reflexivity.
    unfold tag_of_first_action. reflexivity.
Qed.

Lemma loop_error_raise (s : stream) (e : exn) :
  snd (for_loop initial s) = Raise e <-> loop_error s = Some e.
Proof.
  destruct (for_loop_spec s initial) as (_ & _ & E). rewrite E.
  destruct (loop_error s); split; intros H; try discriminate; congruence.
Qed.


(** *** The line that is yielded *)











(** *** The properties of the reporter *)

(** C1 (as amended).  For every run in which the loop does not raise,
    [tool_used] in the response is the public tag of the tool name of
    the first Action event among the chunks read ("weather" for
    WeatherTool, "math" for MathTool, "llm" for LLMTool), and "llm"
    when no Action event is read.  Once a tool is identified, no chunk
    changes [tool_used]. *)
Theorem tool_used_first_action (query : string) (s : stream) :
  loop_error s = None ->
  (exists r,
      report query s = Ok r
      /\ (forall name t,
             first_action (observed s) = Some name ->
             public_tag name = Some t ->
             r_tool_used r = t)
      /\ (first_action (observed s) = None -> r_tool_used r = "llm"))
  /\ (forall st c,
         tool_identified st = true ->
         tool_used (fst (loop_body st c)) = tool_used st
         /\ tool_identified (fst (loop_body st c)) = true).
Proof.
  intros H. split; [|intros st c; apply loop_body_identified].
  eexists. split; [apply report_spec|]. rewrite H. cbn [r_tool_used].
  unfold tag_of_first_action. split.
  - intros name t -> ->. reflexivity.
  - intros ->. reflexivity.
Qed.

(** C2 (as amended).  When the loop raises before a Final Answer, the
    response has the query, the result "An error occurred during agent
    execution: " followed by the text of the exception, which is not
    empty, and [tool_used] "llm", whatever tool had been identified
    before. *)
Theorem error_response (query : string) (s : stream) (e : exn) :
  snd (for_loop initial s) = Raise e ->
  report query s
  = Ok {| r_query := query;
          r_tool_used := "llm";
          r_result := "An error occurred during agent execution: " ++ exn_str e |}
  /\ "An error occurred during agent execution: " ++ exn_str e <> "".
Proof.
  intros H. apply loop_error_raise in H. split; [|discriminate].
  rewrite report_spec, H. reflexivity.
Qed.


(** The response depends on the stream only through what the loop
    reads of it: two streams with the same chunks up to the Final
    Answer and the same end of the loop give the same response, however
    they go on. *)
Lemma same_stream_same_response (query : string) (s1 s2 : stream) :
  observed s1 = observed s2 ->
  loop_error s1 = loop_error s2 ->
  report query s1 = report query s2
  /\ process_query_with_agent_streaming query s1
     = process_query_with_agent_streaming query s2.
Proof.
  intros O E. unfold process_query_with_agent_streaming.
  rewrite !report_spec, O, E. split; reflexivity.
Qed.

(** C10.  When the first Action event read carries a tool name other
    than WeatherTool, MathTool and LLMTool, [tool_used] in the response
    is "llm", whatever follows in the stream.  On the chunk of that
    event the reporter marks the tool as identified and leaves
    [tool_used] as it is. *)
Theorem unknown_tool_stays_llm (query : string) (s : stream) (name : string) :
  first_action (observed s) = Some name ->
  public_tag name = None ->
  (exists r, report query s = Ok r /\ r_tool_used r = "llm")
  /\ (forall st c,
         tool_identified st = false ->
         action_tool c = Some name ->
         tool_identified (on_actions st c) = true
         /\ tool_used (on_actions st c) = tool_used st).
Proof.
  intros F P. split.
  - eexists. split; [apply report_spec|]. cbn [r_tool_used].
    unfold tag_of_first_action. rewrite F, P. now destruct (loop_error s).
  - intros st c I A. rewrite on_actions_spec, A, I, P. now split.
Qed.

End AgentFacts.

(** C1 (as stated) fails: the first Action event names WeatherTool,
    the stream then raises, and [tool_used] is "llm". *)
Lemma first_tool_lost_on_error :
  ~ first_tool_reported "weather in Paris"
      (Agent.Yield (action_chunk "WeatherTool")
         (Agent.Raises (mk_exn ConnectionError "model unreachable"))).
Proof.
  intros H.
  destruct (H _ eq_refl) as [H1 _].
  specialize (H1 "WeatherTool" "weather" eq_refl eq_refl).
  discriminate H1.
Qed.

Lemma tool_used_first_action_witness :
  exists r,
    Agent.report "2 + 2"
      (Agent.Yield (action_chunk "MathTool")
         (Agent.Yield (action_chunk "WeatherTool")
            (Agent.Yield (output_chunk "4") Agent.Exhausted))) = Ok r
    /\ Agent.r_tool_used r = "math".
Proof.
  destruct (proj1 (tool_used_first_action "2 + 2"
      (Agent.Yield (action_chunk "MathTool")
         (Agent.Yield (action_chunk "WeatherTool")
            (Agent.Yield (output_chunk "4") Agent.Exhausted))) eq_refl))
    as (r & R & T & _).
  exists r. split; [exact R|]. apply (T "MathTool"); reflexivity.
Defined.

(** C2 (as stated) fails: MathTool is identified, the stream raises,
    and [tool_used] is "llm" although the loop left it at "math". *)
Lemma tool_reset_on_error :
  ~ tool_kept_on_error "2 + 2"
      (Agent.Yield (action_chunk "MathTool")
         (Agent.Raises (mk_exn ValueError "iteration limit"))).
Proof.
  intros H.
  destruct (H _ _ eq_refl eq_refl) as [_ H2].
  discriminate H2.
Qed.

Lemma error_response_witness :
  Agent.report "2 + 2"
    (Agent.Yield (action_chunk "MathTool")
       (Agent.Raises (mk_exn ValueError "iteration limit")))
  = Ok {| Agent.r_query := "2 + 2";
          Agent.r_tool_used := "llm";
          Agent.r_result :=
            "An error occurred during agent execution: iteration limit" |}.
Proof.
  apply (error_response "2 + 2"
           (Agent.Yield (action_chunk "MathTool")
              (Agent.Raises (mk_exn ValueError "iteration limit")))
           (mk_exn ValueError "iteration limit")).
  reflexivity.
Defined.

Lemma same_stream_same_response_witness :
  Agent.report "hello" (Agent.Yield (output_chunk "hi") Agent.Exhausted)
  = Agent.report "hello"
      (Agent.Yield (output_chunk "hi")
         (Agent.Yield (action_chunk "MathTool") Agent.Exhausted)).
Proof.
  apply (same_stream_same_response "hello"
           (Agent.Yield (output_chunk "hi") Agent.Exhausted)
           (Agent.Yield (output_chunk "hi")
              (Agent.Yield (action_chunk "MathTool") Agent.Exhausted)));
    reflexivity.
Defined.

Lemma unknown_tool_stays_llm_witness :
  exists r,
    Agent.report "q"
      (Agent.Yield (action_chunk "SearchTool")
         (Agent.Yield (action_chunk "WeatherTool")
            (Agent.Yield (output_chunk "sunny") Agent.Exhausted))) = Ok r
    /\ Agent.r_tool_used r = "llm".
Proof.
  apply (unknown_tool_stays_llm "q"
           (Agent.Yield (action_chunk "SearchTool")
              (Agent.Yield (action_chunk "WeatherTool")
                 (Agent.Yield (output_chunk "sunny") Agent.Exhausted)))
           "SearchTool"); reflexivity.
Defined.

(* ================================================================= *)
(** ** Integers are computed exactly *)

Lemma digits_log2 (p : positive) :
  Zpos (digits2_pos p) = Z.log2 (Zpos p) + 1.
Proof.
  assert (S : forall q, digits2_pos q = Pos.size q).
  { induction q as [q IH|q IH|]; simpl; now rewrite ?IH. }
  rewrite S. destruct p as [p|p|]; simpl; try reflexivity;
    rewrite Pos2Z.inj_succ; lia.
Qed.

Lemma digits_small (p : positive) :
  Zpos p < 2 ^ 53 <-> Zpos (digits2_pos p) <= 53.
Proof.
  rewrite digits_log2. rewrite (Z.log2_lt_pow2 (Zpos p) 53) by lia. lia.
Qed.

Lemma digits_mul_pow2 (p : positive) (k : Z) :
  0 <= k ->
  Zpos (digits2_pos (Z.to_pos (Zpos p * 2 ^ k))) = Zpos (digits2_pos p) + k.
Proof.
  intros K. rewrite !digits_log2.
  assert (0 < 2 ^ k) by (apply Z.pow_pos_nonneg; lia).
  rewrite Z2Pos.id by nia.
  rewrite Z.log2_mul_pow2 by lia. lia.
Qed.

Lemma iter_xO_pow2 (q n : positive) :
  Zpos (Pos.iter xO q n) = Zpos q * 2 ^ Zpos n.
Proof.
  induction n as [|n IH] using Pos.peano_ind.
  - simpl. now rewrite Pos2Z.inj_xO, Z.mul_comm.
  - rewrite Pos.iter_succ, Pos2Z.inj_xO, IH, Pos2Z.inj_succ, Z.pow_succ_r by lia.
    ring.
Qed.

(** Shifting out zero bits loses nothing. *)
Lemma iter_shr_exact (n q : positive) :
  SpecFloat.iter_pos shr_1 n (exact_record (Zpos (Pos.iter xO q n)))
  = exact_record (Zpos q).
Proof.
  revert q. induction n as [n IH|n IH|]; intros q.
  - cbn [SpecFloat.iter_pos Pos.iter].
    change (shr_1 (exact_record (Zpos (Pos.iter xO (Pos.iter xO q n) n)~0)))
      with (exact_record (Zpos (Pos.iter xO (Pos.iter xO q n) n))).
    now rewrite !IH.
  - cbn [SpecFloat.iter_pos Pos.iter]. now rewrite !IH.
  - reflexivity.
Qed.

Lemma digits_pos (p : positive) : 1 <= Zpos (digits2_pos p).
Proof. lia. Qed.

Lemma fexp_small (d : Z) : -1000 <= d -> fexp prec64 emax64 d = d - 53.
Proof. unfold fexp, emin, prec64, emax64. lia. Qed.

Lemma float_of_int_signed (s : bool) (v : positive) :
  float_of_int (cond_Zopp s (Zpos v))
  = S754_finite s
      (Z.to_pos (Zpos v * 2 ^ (53 - Zpos (digits2_pos v))))
      (Zpos (digits2_pos v) - 53).
Proof. destruct s; reflexivity. Qed.

(** The mantissa [m] at the exponent [e] stands for the integer [v]
    below [2^53]: one exact shift gives the 53-bit mantissa. *)
Lemma shr_fexp_exact (m v : positive) (e : Z) :
  Zpos v < 2 ^ 53 ->
  e <= Zpos (digits2_pos v) - 53 ->
  Zpos m = Zpos v * 2 ^ (- e) ->
  shr_fexp prec64 emax64 (Zpos m) e loc_Exact
  = (exact_record (Zpos (Z.to_pos (Zpos v * 2 ^ (53 - Zpos (digits2_pos v))))),
     Zpos (digits2_pos v) - 53).
Proof.
  intros V E M. apply digits_small in V.
  set (dv := Zpos (digits2_pos v)) in *.
  assert (P : 0 < Zpos v * 2 ^ (53 - dv)).
  { assert (0 < 2 ^ (53 - dv)) by (apply Z.pow_pos_nonneg; lia). nia. }
  assert (D : Zdigits2 (Zpos m) = dv - e).
  { cbn [Zdigits2]. rewrite <- (Pos2Z.id m), M.
    rewrite digits_mul_pow2 by lia. fold dv. lia. }
  unfold shr_fexp. rewrite D. replace (dv - e + e) with dv by lia.
  rewrite fexp_small by (unfold dv; lia).
  change (shr_record_of_loc (Zpos m) loc_Exact) with (exact_record (Zpos m)).
  destruct (dv - 53 - e) as [|np|np] eqn:N; [| |lia].
  - unfold shr. f_equal; [|lia]. f_equal.
    rewrite Z2Pos.id by exact P. rewrite M. f_equal. f_equal. lia.
  - unfold shr. f_equal; [|lia].
    assert (Q : m = Pos.iter xO (Z.to_pos (Zpos v * 2 ^ (53 - dv))) np).
    { apply Pos2Z.inj. rewrite iter_xO_pow2, Z2Pos.id by exact P.
      rewrite M, <- Z.mul_assoc, <- Z.pow_add_r by lia.
      f_equal. f_equal. lia. }
    rewrite Q at 1. apply iter_shr_exact.
Qed.

Lemma round_aux_exact (s : bool) (m v : positive) (e : Z) :
  Zpos v < 2 ^ 53 ->
  e <= Zpos (digits2_pos v) - 53 ->
  Zpos m = Zpos v * 2 ^ (- e) ->
  binary_round_aux prec64 emax64 s (Zpos m) e loc_Exact
  = float_of_int (cond_Zopp s (Zpos v)).
Proof.
  intros V E M. rewrite float_of_int_signed.
  unfold binary_round_aux. rewrite (shr_fexp_exact m v e V E M).
  cbn [exact_record shr_m shr_r shr_s loc_of_shr_record round_nearest_even].
  pose proof (proj1 (digits_small v) V) as D.
  set (dv := Zpos (digits2_pos v)) in *.
  assert (P : 0 < Zpos v * 2 ^ (53 - dv)).
  { assert (0 < 2 ^ (53 - dv)) by (apply Z.pow_pos_nonneg; lia). nia. }
  rewrite (shr_fexp_exact _ v (dv - 53) V).
  - cbn [exact_record shr_m]. unfold emax64, prec64.
    assert (L : (dv - 53 <=? 1024 - 53) = true) by lia.
    unfold dv in L |- *. now rewrite L.
  - unfold dv. lia.
  - rewrite Z2Pos.id by exact P. f_equal. f_equal. lia.
Qed.

Lemma shl_align_value (m : positive) (e e' : Z) :
  e' <= e ->
  Zpos (fst (shl_align m e e')) = Zpos m * 2 ^ (e - e')
  /\ snd (shl_align m e e') = e'.
Proof.
  intros L. unfold shl_align.
  destruct (e' - e) as [|d|d] eqn:D; cbn [fst snd]; try lia.
  - replace (e - e') with 0 by lia. split; lia.
  - rewrite iter_xO_pow2. split; [|reflexivity]. f_equal. f_equal. lia.
Qed.

Lemma binary_round_exact (s : bool) (m v : positive) (e : Z) :
  Zpos v < 2 ^ 53 ->
  e <= 0 ->
  Zpos m = Zpos v * 2 ^ (- e) ->
  binary_round prec64 emax64 s m e = float_of_int (cond_Zopp s (Zpos v)).
Proof.
  intros V E M. pose proof (proj1 (digits_small v) V) as D.
  assert (Dm : Zpos (digits2_pos m) + e = Zpos (digits2_pos v)).
  { rewrite <- (Pos2Z.id m), M. rewrite digits_mul_pow2 by lia. lia. }
  unfold binary_round. rewrite Dm, fexp_small by lia.
  set (dv := Zpos (digits2_pos v)) in *.
  destruct (Z_le_gt_dec e (dv - 53)) as [L|G].
  - assert (S : shl_align m e (dv - 53) = (m, e)).
    { unfold shl_align. destruct (dv - 53 - e) eqn:X; try reflexivity. lia. }
    rewrite S. now apply round_aux_exact.
  - destruct (shl_align_value m e (dv - 53)) as [A B]; [lia|].
    destruct (shl_align m e (dv - 53)) as [mz ez]. cbn [fst snd] in A, B.
    subst ez. apply round_aux_exact; [exact V|unfold dv; lia|].
    rewrite A, M, <- Z.mul_assoc, <- Z.pow_add_r by lia.
    f_equal. f_equal. lia.
Qed.

(** A sum of aligned mantissas that stands for an integer below
    [2^53] is normalised to that integer. *)
Lemma binary_normalize_exact (M V e : Z) :
  Z.abs V < 2 ^ 53 ->
  e <= 0 ->
  M = V * 2 ^ (- e) ->
  binary_normalize prec64 emax64 M e false = float_of_int V.
Proof.
  intros B E H.
  assert (P : 0 < 2 ^ (- e)) by (apply Z.pow_pos_nonneg; lia).
  destruct V as [|v|v].
  - subst M. reflexivity.
  - destruct M as [|m|m]; try nia.
    cbn [binary_normalize]. apply (binary_round_exact false m v e); lia.
  - destruct M as [|m|m]; try nia.
    cbn [binary_normalize]. apply (binary_round_exact true m v e); lia.
Qed.

(** The shape of the double of a non-zero integer below [2^53]. *)
Lemma float_of_int_finite (v : Z) :
  v <> 0 ->
  Z.abs v < 2 ^ 53 ->
  exists s m e,
    float_of_int v = S754_finite s m e
    /\ -52 <= e <= 0
    /\ cond_Zopp s (Zpos m) = v * 2 ^ (- e)
    /\ Zpos (digits2_pos m) = 53.
Proof.
  intros N B.
  assert (G : forall p : positive, Zpos p < 2 ^ 53 ->
            -52 <= Zpos (digits2_pos p) - 53 <= 0
            /\ Zpos (Z.to_pos (Zpos p * 2 ^ (53 - Zpos (digits2_pos p))))
               = Zpos p * 2 ^ (- (Zpos (digits2_pos p) - 53))
            /\ Zpos (digits2_pos (Z.to_pos (Zpos p * 2 ^ (53 - Zpos (digits2_pos p)))))
               = 53).
  { intros p Hp. pose proof (proj1 (digits_small p) Hp) as D.
    pose proof (digits_pos p) as D1.
    assert (0 < 2 ^ (53 - Zpos (digits2_pos p))) by (apply Z.pow_pos_nonneg; lia).
    split; [lia|]. split.
    - rewrite Z2Pos.id by nia. f_equal. f_equal. lia.
    - rewrite digits_mul_pow2 by lia. lia. }
  destruct v as [|p|p]; [now elim N| |].
  - destruct (G p) as (E & M & D); [lia|].
    exists false. eexists. eexists. split; [reflexivity|].
    split; [exact E|]. split; [exact M|exact D].
  - destruct (G p) as (E & M & D); [lia|].
    exists true. eexists. eexists. split; [reflexivity|].
    split; [exact E|]. split; [|exact D].
    cbn [cond_Zopp]. rewrite M. lia.
Qed.

Lemma float_of_int_value (v : Z) :
  Z.abs v < 2 ^ 53 ->
  is_finite (float_of_int v) = true
  /\ (inject_Z v == float_value (float_of_int v))%Q.
Proof.
  intros B. destruct (Z.eq_dec v 0) as [->|N]; [split; reflexivity|].
  destruct (float_of_int_finite v N B) as (s & m & e & F & E & M & _).
  rewrite F. split; [reflexivity|].
  unfold float_value, Qeq. destruct e as [|k|k]; cbn [inject_Z Qnum Qden]; try lia.
  - change (- 0) with 0 in M. rewrite Z.pow_0_r in *.
    destruct s; cbn [cond_Zopp] in *; lia.
  - rewrite pos_pow_Z. rewrite M. change (- Zneg k) with (Zpos k). lia.
Qed.

Lemma aligned_value (s : bool) (m : positive) (e ez v : Z) :
  ez <= e -> e <= 0 ->
  cond_Zopp s (Zpos m) = v * 2 ^ (- e) ->
  cond_Zopp s (Zpos (fst (shl_align m e ez))) = v * 2 ^ (- ez).
Proof.
  intros L E M. destruct (shl_align_value m e ez L) as [A _].
  rewrite A.
  replace (- ez) with (- e + (e - ez)) by lia.
  rewrite Z.pow_add_r by lia.
  destruct s; cbn [cond_Zopp] in *; nia.
Qed.

Lemma SFadd_exact (a b : Z) :
  Z.abs a < 2 ^ 53 -> Z.abs b < 2 ^ 53 -> Z.abs (a + b) < 2 ^ 53 ->
  SFadd prec64 emax64 (float_of_int a) (float_of_int b) = float_of_int (a + b).
Proof.
  intros A B C.
  destruct (Z.eq_dec a 0) as [->|Na].
  { destruct b; reflexivity. }
  destruct (Z.eq_dec b 0) as [->|Nb].
  { rewrite Z.add_0_r. destruct a; reflexivity. }
  destruct (float_of_int_finite a Na A) as (sa & ma & ea & Fa & Ea & Ma & _).
  destruct (float_of_int_finite b Nb B) as (sb & mb & eb & Fb & Eb & Mb & _).
  rewrite Fa, Fb. cbn [SFadd].
  apply binary_normalize_exact; [exact C|lia|].
  rewrite (aligned_value sa ma ea (Z.min ea eb) a) by (lia || assumption).
  rewrite (aligned_value sb mb eb (Z.min ea eb) b) by (lia || assumption).
  ring.
Qed.

Lemma SFsub_exact (a b : Z) :
  Z.abs a < 2 ^ 53 -> Z.abs b < 2 ^ 53 -> Z.abs (a - b) < 2 ^ 53 ->
  SFsub prec64 emax64 (float_of_int a) (float_of_int b) = float_of_int (a - b).
Proof.
  intros A B C.
  destruct (Z.eq_dec b 0) as [->|Nb].
  { rewrite Z.sub_0_r. destruct a; reflexivity. }
  destruct (Z.eq_dec a 0) as [->|Na].
  { destruct b; reflexivity. }
  destruct (float_of_int_finite a Na A) as (sa & ma & ea & Fa & Ea & Ma & _).
  destruct (float_of_int_finite b Nb B) as (sb & mb & eb & Fb & Eb & Mb & _).
  rewrite Fa, Fb. cbn [SFsub].
  apply binary_normalize_exact; [exact C|lia|].
  rewrite (aligned_value sa ma ea (Z.min ea eb) a) by (lia || assumption).
  rewrite (aligned_value sb mb eb (Z.min ea eb) b) by (lia || assumption).
  ring.
Qed.

Lemma signed_mantissa (s : bool) (m : positive) (v k : Z) :
  0 <= k ->
  cond_Zopp s (Zpos m) = v * 2 ^ k ->
  Zpos m = Z.abs v * 2 ^ k /\ v = cond_Zopp s (Z.abs v) /\ v <> 0.
Proof.
  intros K H. assert (P : 0 < 2 ^ k) by (apply Z.pow_pos_nonneg; lia).
  destruct s; cbn [cond_Zopp] in *; nia.
Qed.

Lemma SFmul_exact (a b : Z) :
  a <> 0 -> b <> 0 -> Z.abs (a * b) < 2 ^ 53 ->
  SFmul prec64 emax64 (float_of_int a) (float_of_int b) = float_of_int (a * b).
Proof.
  intros Na Nb C.
  assert (A : Z.abs a < 2 ^ 53) by nia.
  assert (B : Z.abs b < 2 ^ 53) by nia.
  destruct (float_of_int_finite a Na A) as (sa & ma & ea & Fa & Ea & Ma & Da).
  destruct (float_of_int_finite b Nb B) as (sb & mb & eb & Fb & Eb & Mb & Db).
  rewrite Fa, Fb. cbn [SFmul].
  destruct (signed_mantissa sa ma a (- ea)) as (Va & Sa & _); [lia|exact Ma|].
  destruct (signed_mantissa sb mb b (- eb)) as (Vb & Sb & _); [lia|exact Mb|].
  set (v := Z.to_pos (Z.abs (a * b))).
  assert (Hv : Zpos v = Z.abs (a * b)) by (unfold v; rewrite Z2Pos.id; lia).
  assert (S : a * b = cond_Zopp (xorb sa sb) (Zpos v)).
  { rewrite Hv. rewrite Sa at 1. rewrite Sb at 1.
    destruct sa, sb; cbn [cond_Zopp xorb]; nia. }
  rewrite S.
  assert (M : Zpos (ma * mb) = Zpos v * 2 ^ (- (ea + eb))).
  { rewrite Pos2Z.inj_mul, Va, Vb, Hv, Z.abs_mul.
    replace (- (ea + eb)) with (- ea + - eb) by lia.
    rewrite Z.pow_add_r by lia. ring. }
  apply round_aux_exact; [lia| |exact M].
  assert (D : Zpos (digits2_pos (ma * mb)) = Zpos (digits2_pos v) - (ea + eb)).
  { rewrite <- (Pos2Z.id (ma * mb)), M. rewrite digits_mul_pow2 by lia. lia. }
  rewrite !digits_log2 in D. rewrite digits_log2 in Da, Db.
  assert (L : Z.log2 (Zpos ma) + Z.log2 (Zpos mb) <= Z.log2 (Zpos ma * Zpos mb))
    by (apply Z.log2_mul_below; lia).
  rewrite Pos2Z.inj_mul in D. rewrite digits_log2. lia.
Qed.

Lemma div_core_exact (ma mb : positive) (ea eb : Z) (q : positive) :
  Zpos (digits2_pos ma) = 53 ->
  Zpos (digits2_pos mb) = 53 ->
  -52 <= ea <= 0 -> -52 <= eb <= 0 ->
  Zpos ma * 2 ^ 53 = Zpos q * Zpos mb ->
  SFdiv_core_binary prec64 emax64 (Zpos ma) ea (Zpos mb) eb
  = (Zpos q, ea - eb - 53, loc_Exact).
Proof.
  intros Da Db Ea Eb H. unfold SFdiv_core_binary. cbn [Zdigits2].
  rewrite Da, Db.
  replace (53 + ea - (53 + eb)) with (ea - eb) by lia.
  rewrite fexp_small by lia.
  replace (Z.min (ea - eb - 53) (ea - eb)) with (ea - eb - 53) by lia.
  replace (ea - eb - (ea - eb - 53)) with 53 by lia.
  cbv iota beta. rewrite Z.shiftl_mul_pow2 by lia. rewrite H.
  pose proof (Z.div_mul (Zpos q) (Zpos mb)) as X.
  pose proof (Z.mod_mul (Zpos q) (Zpos mb)) as Y.
  unfold Z.div, Z.modulo in X, Y.
  destruct (Z.div_eucl (Zpos q * Zpos mb) (Zpos mb)) as [d r].
  rewrite X, Y by lia.
  f_equal. unfold new_location, new_location_even, new_location_odd.
  now destruct (Z.even (Zpos mb)).
Qed.

Lemma SFdiv_exact (b c : Z) :
  b <> 0 -> c <> 0 -> Z.abs (c * b) < 2 ^ 53 ->
  SFdiv prec64 emax64 (float_of_int (c * b)) (float_of_int b) = float_of_int c.
Proof.
  intros Nb Nc A.
  assert (B : Z.abs b < 2 ^ 53) by nia.
  assert (C : Z.abs c < 2 ^ 53) by nia.
  assert (Na : c * b <> 0) by nia.
  destruct (float_of_int_finite (c * b) Na A) as (sa & ma & ea & Fa & Ea & Ma & Da).
  destruct (float_of_int_finite b Nb B) as (sb & mb & eb & Fb & Eb & Mb & Db).
  rewrite Fa, Fb. cbn [SFdiv].
  destruct (signed_mantissa sa ma (c * b) (- ea)) as (Va & Sa & _); [lia|exact Ma|].
  destruct (signed_mantissa sb mb b (- eb)) as (Vb & Sb & _); [lia|exact Mb|].
  set (v := Z.to_pos (Z.abs c)).
  assert (Hv : Zpos v = Z.abs c) by (unfold v; rewrite Z2Pos.id; lia).
  assert (Pa : 0 < 2 ^ (- ea)) by (apply Z.pow_pos_nonneg; lia).
  assert (Pb : 0 < 2 ^ (- eb)) by (apply Z.pow_pos_nonneg; lia).
  set (k := 53 - ea + eb).
  assert (Pk : 0 < 2 ^ k) by (apply Z.pow_pos_nonneg; unfold k; lia).
  set (q := Z.to_pos (Zpos v * 2 ^ k)).
  assert (Hq : Zpos q = Zpos v * 2 ^ k) by (unfold q; rewrite Z2Pos.id; nia).
  assert (H : Zpos ma * 2 ^ 53 = Zpos q * Zpos mb).
  { rewrite Hq, Va, Vb, Hv, Z.abs_mul.
    transitivity (Z.abs c * Z.abs b * (2 ^ (- ea) * 2 ^ 53)); [ring|].
    transitivity (Z.abs c * Z.abs b * (2 ^ k * 2 ^ (- eb))); [|ring].
    f_equal. rewrite <- !Z.pow_add_r by (unfold k; lia).
    f_equal. unfold k. lia. }
  rewrite (div_core_exact ma mb ea eb q Da Db Ea Eb H).
  assert (S : c = cond_Zopp (xorb sa sb) (Zpos v)).
  { rewrite Hv. destruct sa, sb; cbn [cond_Zopp xorb] in *; nia. }
  transitivity (float_of_int (cond_Zopp (xorb sa sb) (Zpos v)));
    [|now rewrite <- S].
  apply round_aux_exact; [lia| |].
  - assert (D : Zpos (digits2_pos q) = Zpos (digits2_pos v) + k).
    { unfold q. apply digits_mul_pow2. unfold k. lia. }
    rewrite !digits_log2 in D. rewrite digits_log2 in Da, Db.
    assert (L : Z.log2 (Zpos q * Zpos mb) <= Z.log2 (Zpos q) + Z.log2 (Zpos mb) + 1)
      by (apply Z.log2_mul_above; lia).
    rewrite <- H in L. rewrite Z.log2_mul_pow2 in L by lia.
    rewrite digits_log2. unfold k in D. lia.
  - rewrite Hq. f_equal. f_equal. unfold k. lia.
Qed.

(** *** Integer literals *)

Lemma code_ascii_of_N (n : N) : (n < 256)%N -> code (ascii_of_N n) = n.
Proof. apply N_ascii_embedding. Qed.

Lemma digit_char (k : N) :
  (k < 10)%N ->
  is_digit (ascii_of_N (48 + k)) = true
  /\ (code (ascii_of_N (48 + k)) - 48 = k)%N.
Proof.
  intros K. unfold is_digit. cbv zeta. rewrite code_ascii_of_N by lia.
  split; [|lia]. apply andb_true_iff. split; apply N.leb_le; lia.
Qed.

Lemma all_digits_app (a b : string) :
  all_digits (a ++ b) = all_digits a && all_digits b.
Proof.
  induction a as [|c a IH]; [reflexivity|].
  cbn [String.append all_digits]. now rewrite IH, andb_assoc.
Qed.

Lemma digits_value_app (a b : string) (acc : N) :
  digits_value acc (a ++ b) = digits_value (digits_value acc a) b.
Proof.
  revert acc. induction a as [|c a IH]; intros acc; [reflexivity|].
  cbn [String.append digits_value]. apply IH.
Qed.

Lemma digits_fuel_spec (fuel : nat) :
  forall (n : N) (acc : string),
    (n < 2 ^ N.of_nat fuel)%N ->
    exists ds,
      digits_of_pos_fuel fuel n acc = (ds ++ acc)%string
      /\ (fuel <> O -> ds <> EmptyString)
      /\ all_digits ds = true
      /\ (fuel <> O ->
          forall a, digits_value a ds
                    = (a * 10 ^ N.of_nat (String.length ds) + n)%N).
Proof.
  induction fuel as [|f IH]; intros n acc B.
  - exists EmptyString. repeat split; try reflexivity; intros H; now elim H.
  - cbn [digits_of_pos_fuel].
    pose proof (N.div_mod' n 10) as DM.
    pose proof (N.mod_lt n 10) as ML.
    destruct (digit_char (n mod 10)) as [Dg Dv]; [lia|].
    destruct (N.eqb_spec (n / 10) 0) as [Z|NZ].
    + exists (String (ascii_of_N (48 + n mod 10)) EmptyString).
      split; [reflexivity|]. split; [discriminate|].
      split; [cbn [all_digits]; now rewrite Dg|].
      intros _ a. cbn [digits_value String.length]. rewrite Dv.
      change (N.of_nat 1) with 1%N. lia.
    + assert (B' : (n / 10 < 2 ^ N.of_nat f)%N).
      { rewrite Nat2N.inj_succ, N.pow_succ_r' in B. lia. }
      assert (F : f <> O).
      { intros ->. change (2 ^ N.of_nat 0)%N with 1%N in B'. lia. }
      destruct (IH (n / 10)%N
                  (String (ascii_of_N (48 + n mod 10)) acc) B')
        as (ds & E & NE & AD & DV).
      exists (ds ++ String (ascii_of_N (48 + n mod 10)) EmptyString)%string.
      split; [rewrite E, string_app_assoc; reflexivity|].
      split; [intros _; destruct ds; [now elim (NE F)|discriminate]|].
      split; [rewrite all_digits_app, AD; cbn [all_digits]; now rewrite Dg|].
      intros _ a. rewrite digits_value_app, (DV F).
      cbn [digits_value]. rewrite Dv, length_app.
      cbn [String.length]. rewrite Nat.add_1_r, Nat2N.inj_succ, N.pow_succ_r'.
      lia.
Qed.

(** The decimal rendering of a natural number: digits only, at least
    one, and they read back as the number. *)
Lemma str_of_N_spec (n : N) :
  str_of_N n <> EmptyString
  /\ all_digits (str_of_N n) = true
  /\ digits_value 0 (str_of_N n) = n.
Proof.
  unfold str_of_N.
  destruct (digits_fuel_spec (S (N.to_nat (N.log2 n))) n EmptyString)
    as (ds & E & NE & AD & DV).
  - rewrite Nat2N.inj_succ, N2Nat.id.
    destruct n as [|p]; [reflexivity|]. apply N.log2_spec. lia.
  - rewrite E.
    assert (R : forall s : string, (s ++ "")%string = s).
    { induction s as [|c s IH]; [reflexivity|]. cbn. now rewrite IH. }
    rewrite R. split; [now apply NE|]. split; [exact AD|].
    rewrite DV by discriminate. lia.
Qed.

Lemma digit_not_space (c : ascii) : is_digit c = true -> isspace c = false.
Proof.
  unfold is_digit, isspace. cbv zeta. intros H.
  apply andb_true_iff in H. destruct H as [L U].
  apply N.leb_le in L. apply N.leb_le in U.
  repeat (apply orb_false_iff; split);
    try apply andb_false_iff; try (apply N.eqb_neq; lia);
    try (right; apply N.leb_gt; lia); left; apply N.leb_gt; lia.
Qed.

Lemma digit_plain (c : ascii) :
  is_digit c = true ->
  Ascii.eqb c "_" = false /\ Ascii.eqb c "-" = false /\ Ascii.eqb c "+" = false.
Proof.
  unfold is_digit. cbv zeta. intros H.
  apply andb_true_iff in H. destruct H as [L U].
  apply N.leb_le in L. apply N.leb_le in U.
  repeat split; apply Ascii.eqb_neq; intros ->; vm_compute in L, U;
    try (now elim L); try (now elim U).
Qed.

Lemma rstrip_digits (s : string) : all_digits s = true -> rstrip s = s.
Proof.
  induction s as [|c s IH]; [reflexivity|]. cbn [all_digits rstrip].
  intros H. apply andb_true_iff in H. destruct H as [C S].
  rewrite (IH S). destruct s; [|reflexivity].
  now rewrite (digit_not_space c C).
Qed.

Lemma strip_digits (s : string) : all_digits s = true -> py_strip s = s.
Proof.
  intros H. unfold py_strip.
  assert (L : lstrip s = s).
  { destruct s as [|c s]; [reflexivity|]. cbn [all_digits lstrip] in *.
    apply andb_true_iff in H. now rewrite (digit_not_space c (proj1 H)). }
  rewrite L. now apply rstrip_digits.
Qed.

Lemma underscores_digits (s : string) (prev : option ascii) :
  all_digits s = true ->
  prev <> Some "_"%char ->
  strip_underscores prev s = Some s.
Proof.
  revert prev. induction s as [|c s IH]; intros prev H P.
  - cbn [strip_underscores]. destruct prev as [p|]; [|reflexivity].
    destruct (Ascii.eqb_spec p "_") as [->|N]; [now elim P|].
    destruct p as [[] [] [] [] [] [] [] []]; try reflexivity. now elim N.
  - cbn [all_digits] in H. apply andb_true_iff in H. destruct H as [C S].
    destruct (digit_plain c C) as (U & _ & _).
    cbn [strip_underscores]. rewrite U.
    assert (R : strip_underscores (Some c) s = Some s).
    { apply IH; [exact S|]. intros [= ->]. discriminate U. }
    rewrite R.
    destruct prev as [p|]; [|reflexivity].
    destruct (Ascii.eqb_spec p "_") as [->|N]; [now elim P|].
    destruct p as [[] [] [] [] [] [] [] []]; try reflexivity. now elim N.
Qed.

Lemma span_all_digits (s : string) :
  all_digits s = true -> span_digits s = (s, EmptyString).
Proof.
  induction s as [|c s IH]; [reflexivity|]. cbn [all_digits span_digits].
  intros H. apply andb_true_iff in H. destruct H as [C S].
  now rewrite C, (IH S).
Qed.

Lemma parse_parts_digits (s : string) :
  s <> EmptyString ->
  all_digits s = true ->
  parse_decimal_parts s = Some (digits_value 0 s, 0).
Proof.
  intros N H. unfold parse_decimal_parts. rewrite (span_all_digits s H).
  assert (R : (s ++ "")%string = s).
  { clear. induction s as [|c s IH]; [reflexivity|]. cbn. now rewrite IH. }
  rewrite R. destruct s; [now elim N|reflexivity].
Qed.

Lemma take_sign_digits (s : string) :
  s <> EmptyString -> all_digits s = true -> take_sign s = (false, s).
Proof.
  intros N H. destruct s as [|c s]; [now elim N|].
  cbn [all_digits] in H. apply andb_true_iff in H.
  destruct (digit_plain c (proj1 H)) as (_ & M & P).
  unfold take_sign.
  destruct c as [[] [] [] [] [] [] [] []]; try reflexivity;
    vm_compute in M, P; congruence.
Qed.

Lemma float_of_decimal_int (neg : bool) (n : N) :
  (n < 2 ^ 53)%N ->
  n <> 0%N \/ neg = false ->
  float_of_decimal neg n 0 = float_of_int (cond_Zopp neg (Z.of_N n)).
Proof.
  intros B H. destruct n as [|p].
  - destruct H as [H| ->]; [now elim H|reflexivity].
  - cbn [float_of_decimal Z.of_N]. change (Z.to_pos (10 ^ 0)) with 1%positive.
    apply binary_round_exact; [lia|lia|].
    rewrite Pos.mul_1_r. change (- 0) with 0. rewrite Z.pow_0_r. lia.
Qed.

(** [float] reads the decimal rendering of an integer below [2^53]
    as exactly that integer. *)
Lemma parse_float_int (a : Z) :
  Z.abs a < 2 ^ 53 ->
  parse_float (str_of_int a) = Some (float_of_int a).
Proof.
  intros B. unfold parse_float.
  assert (G : forall (n : N), (n < 2 ^ 53)%N ->
            strip_underscores None (py_strip (str_of_N n)) = Some (str_of_N n)
            /\ take_sign (str_of_N n) = (false, str_of_N n)
            /\ forall neg, n <> 0%N \/ neg = false ->
                 parse_decimal neg (str_of_N n)
                 = Some (float_of_int (cond_Zopp neg (Z.of_N n)))).
  { intros n Bn. destruct (str_of_N_spec n) as (NE & AD & DV).
    rewrite (strip_digits _ AD), (underscores_digits _ None AD) by discriminate.
    split; [reflexivity|]. split; [now apply take_sign_digits|].
    intros neg H. unfold parse_decimal.
    rewrite (parse_parts_digits _ NE AD), DV.
    now rewrite float_of_decimal_int. }
  destruct a as [|p|p]; unfold str_of_int.
  - destruct (G 0%N) as (S & T & P); [reflexivity|].
    cbn [Z.to_N]. rewrite S, T, (P false) by now right. reflexivity.
  - destruct (G (Npos p)) as (S & T & P); [lia|].
    cbn [Z.to_N]. rewrite S, T, (P false) by now right. reflexivity.
  - destruct (G (Npos p)) as (S & T & P); [lia|].
    destruct (str_of_N_spec (Npos p)) as (NE & AD & DV).
    assert (S' : strip_underscores None (py_strip ("-" ++ str_of_N (Npos p)))
                 = Some ("-" ++ str_of_N (Npos p))%string).
    { unfold py_strip. change (lstrip ("-" ++ str_of_N (Npos p)))
        with ("-" ++ str_of_N (Npos p))%string.
      change (rstrip ("-" ++ str_of_N (Npos p)))
        with (match rstrip (str_of_N (Npos p)) with
              | EmptyString => "-"
              | t => String "-" t
              end).
      rewrite (rstrip_digits _ AD).
      revert NE AD. destruct (str_of_N (Npos p)) as [|c t]; intros NE AD;
        [now elim NE|].
      cbv iota. cbn [String.append].
      change (strip_underscores None (String "-" (String c t)))
        with (option_map (String "-")
                (strip_underscores (Some "-"%char) (String c t))).
      rewrite (underscores_digits _ (Some "-"%char) AD) by (intros [=]).
      reflexivity. }
    rewrite S'. cbn [String.append take_sign].
    rewrite (P true) by (left; discriminate). reflexivity.
Qed.

(* ================================================================= *)
(** ** More on the arithmetic evaluator *)

Section MathToolMore.

Import MathTool.

Lemma zero_value (s : bool) :
  is_finite (S754_zero s) = true
  /\ (inject_Z 0 == float_value (S754_zero s))%Q.
Proof. split; reflexivity. Qed.

(** On integers below [2^53] whose result stays below [2^53], the
    binary64 operation is the integer operation. *)
Lemma ieee_apply_int (op : string) (a b c : Z) :
  Z.abs a < 2 ^ 53 -> Z.abs b < 2 ^ 53 ->
  int_apply op a b = Some c ->
  Z.abs c < 2 ^ 53 ->
  exists r,
    ieee_apply op (float_of_int a) (float_of_int b) = Some r
    /\ is_finite r = true
    /\ (inject_Z c == float_value r)%Q.
Proof.
  intros A B H C. unfold int_apply in H. unfold ieee_apply.
  destruct (String.eqb op "+").
  { injection H as <-. eexists. split; [reflexivity|].
    rewrite SFadd_exact by assumption. now apply float_of_int_value. }
  destruct (String.eqb op "-").
  { injection H as <-. eexists. split; [reflexivity|].
    rewrite SFsub_exact by assumption. now apply float_of_int_value. }
  destruct (String.eqb op "*").
  { injection H as <-. eexists. split; [reflexivity|].
    destruct (Z.eq_dec a 0) as [->|Na].
    { destruct b; apply zero_value. }
    destruct (Z.eq_dec b 0) as [->|Nb].
    { rewrite Z.mul_0_r. destruct a; apply zero_value. }
    rewrite SFmul_exact by assumption. now apply float_of_int_value. }
  destruct (String.eqb op "/"); [|discriminate].
  destruct (Z.eqb_spec b 0) as [->|Nb]; [discriminate|].
  destruct (Z.eqb_spec (a mod b) 0) as [M|M]; [|discriminate].
  cbn [orb negb] in H. injection H as <-.
  assert (E : a = a / b * b).
  { pose proof (Z.div_mod a b Nb). lia. }
  assert (Fb : exists s m e, float_of_int b = S754_finite s m e).
  { destruct (float_of_int_finite b Nb B) as (s & m & e & F & _). eauto. }
  destruct Fb as (sb & mb & eb & Fb).
  exists (SFdiv prec64 emax64 (float_of_int a) (float_of_int b)).
  split; [now rewrite Fb|].
  destruct (Z.eq_dec a 0) as [->|Na].
  { rewrite Fb. apply zero_value. }
  assert (Nc : a / b <> 0) by (intros Z; rewrite Z in E; lia).
  replace (float_of_int a) with (float_of_int (a / b * b))
    by (now rewrite <- E).
  rewrite SFdiv_exact by (rewrite <- ?E; assumption).
  now apply float_of_int_value.
Qed.

(** X1.  On an expression whose outer tokens are the decimal
    renderings of two integers [a] and [b] below [2^53] in absolute
    value, with +, - or * between them and a result below [2^53], or
    with / and [b] a non-zero divisor of [a], the evaluator returns the
    exact result, as an integer. *)
Theorem evaluate_exact_on_integers (s op : string) (a b c : Z) :
  py_split (py_strip s) = [str_of_int a; op; str_of_int b] ->
  Z.abs a < 2 ^ 53 ->
  Z.abs b < 2 ^ 53 ->
  int_apply op a b = Some c ->
  Z.abs c < 2 ^ 53 ->
  evaluate_math_expression s = Ok (VInt c).
Proof.
  intros P A B H C. rewrite (evaluate_three _ _ _ _ P).
  destruct (ieee_apply_int op a b c A B H C) as (r & R & F & V).
  destruct (try_body_finite _ op _ _ _ r
              (parse_float_int a A) (parse_float_int b B) R F) as [I _].
  now rewrite (I c V).
Qed.

End MathToolMore.

Lemma evaluate_exact_on_integers_witness :
  MathTool.evaluate_math_expression "  -123456789 *   72057594 "
  = Ok (MathTool.VInt (-8895999178305666)).
Proof.
  apply (evaluate_exact_on_integers "  -123456789 *   72057594 " "*"
           (-123456789) 72057594 (-8895999178305666));
    try reflexivity; vm_compute; reflexivity.
Defined.

(* ================================================================= *)
(** ** Splitting on white space *)

Lemma string_app_nil_r (s : string) : (s ++ "")%string = s.
Proof. induction s as [|c s IH]; [reflexivity|]. cbn. now rewrite IH. Qed.

Lemma snoc_app (cur : string) (c : ascii) (t : string) :
  (snoc cur c ++ t = cur ++ String c t)%string.
Proof. unfold snoc. now rewrite string_app_assoc. Qed.

Lemma snoc_nonempty (cur : string) (c : ascii) : snoc cur c <> EmptyString.
Proof. destruct cur; discriminate. Qed.

(** A token is read into the current token. *)
Lemma split_from_token (tok : string) :
  forall cur rest,
    no_space tok = true ->
    split_from cur (tok ++ rest) = split_from (cur ++ tok) rest.
Proof.
  induction tok as [|c tok IH]; intros cur rest H.
  - now rewrite string_app_nil_r.
  - cbn [no_space] in H. apply andb_true_iff in H. destruct H as [C T].
    apply negb_true_iff in C.
    cbn [String.append split_from]. rewrite C, (IH _ _ T), snoc_app.
    reflexivity.
Qed.

(** White space before a token is skipped. *)
Lemma split_from_skip (w : string) (rest : string) :
  all_space w = true ->
  split_from "" (w ++ rest) = split_from "" rest.
Proof.
  induction w as [|c w IH]; intros H; [reflexivity|].
  cbn [all_space] in H. apply andb_true_iff in H. destruct H as [C W].
  cbn [String.append split_from]. rewrite C. now apply IH.
Qed.

(** White space after a token ends it. *)
Lemma split_from_blank (w cur rest : string) :
  is_blank w -> cur <> EmptyString ->
  split_from cur (w ++ rest) = cur :: split_from "" rest.
Proof.
  intros [N W] C. destruct w as [|c w]; [now elim N|].
  cbn [all_space] in W. apply andb_true_iff in W. destruct W as [Sc W].
  cbn [String.append split_from]. rewrite Sc.
  destruct cur; [now elim C|]. f_equal. now apply split_from_skip.
Qed.

Lemma split_from_end (w cur : string) :
  all_space w = true -> cur <> EmptyString -> split_from cur w = [cur].
Proof.
  intros W C. destruct w as [|c w].
  - destruct cur; [now elim C|reflexivity].
  - rewrite <- (string_app_nil_r (String c w)).
    rewrite split_from_blank by (try split; try discriminate; assumption).
    reflexivity.
Qed.

(** [strip] before [split] changes nothing. *)
Lemma split_from_rstrip (s : string) :
  forall cur, split_from cur (rstrip s) = split_from cur s.
Proof.
  induction s as [|c s IH]; intros cur; [reflexivity|].
  cbn [rstrip]. destruct (rstrip s) as [|d t] eqn:R.
  - destruct (isspace c) eqn:C.
    + cbn [split_from]. rewrite C.
      destruct cur; rewrite <- IH; reflexivity.
    + cbn [split_from]. rewrite C. rewrite <- IH. reflexivity.
  - cbn [split_from]. destruct (isspace c).
    + destruct cur; now rewrite <- IH.
    + now rewrite <- IH.
Qed.

Lemma split_strip (s : string) : py_split (py_strip s) = py_split s.
Proof.
  unfold py_split, py_strip. rewrite split_from_rstrip.
  induction s as [|c s IH]; [reflexivity|].
  cbn [lstrip]. destruct (isspace c) eqn:C; [|reflexivity].
  cbn [split_from]. now rewrite C.
Qed.

(** Three tokens, with any white space around and between them. *)
Lemma split_three (w0 a w1 op w2 b w3 : string) :
  all_space w0 = true -> is_token a -> is_blank w1 -> is_token op ->
  is_blank w2 -> is_token b -> all_space w3 = true ->
  py_split (py_strip (w0 ++ a ++ w1 ++ op ++ w2 ++ b ++ w3)) = [a; op; b].
Proof.
  intros W0 [Na Ta] W1 [No To] W2 [Nb Tb] W3.
  rewrite split_strip. unfold py_split.
  rewrite split_from_skip by exact W0.
  rewrite (split_from_token a) by exact Ta. cbn [String.append].
  rewrite split_from_blank by assumption.
  rewrite (split_from_token op) by exact To. cbn [String.append].
  rewrite split_from_blank by assumption.
  rewrite (split_from_token b) by exact Tb. cbn [String.append].
  now rewrite split_from_end.
Qed.

Lemma split_no_space (s : string) :
  no_space s = true ->
  py_split (py_strip s) = match s with EmptyString => [] | _ => [s] end.
Proof.
  intros H. rewrite split_strip. unfold py_split.
  rewrite <- (string_app_nil_r s) at 1.
  rewrite (split_from_token s) by exact H. cbn [String.append].
  now destruct s.
Qed.

Section MathToolShape.

Import MathTool.

(** X2.  White space is only a separator: three tokens give the same
    result with any runs of white space (blanks, tabs, newlines)
    around and between them as with single blanks. *)
Theorem evaluate_ignores_spacing (w0 a w1 op w2 b w3 : string) :
  all_space w0 = true -> is_token a -> is_blank w1 -> is_token op ->
  is_blank w2 -> is_token b -> all_space w3 = true ->
  evaluate_math_expression (w0 ++ a ++ w1 ++ op ++ w2 ++ b ++ w3)
  = evaluate_math_expression (a ++ " " ++ op ++ " " ++ b).
Proof.
  intros W0 Ta W1 To W2 Tb W3.
  rewrite (evaluate_three _ a op b) by now apply split_three.
  symmetry. apply evaluate_three.
  replace (a ++ " " ++ op ++ " " ++ b)%string
    with ("" ++ a ++ " " ++ op ++ " " ++ b ++ "")%string
    by (now rewrite string_app_nil_r).
  apply (split_three "" a " " op " " b ""); try assumption; try reflexivity;
    split; (discriminate || reflexivity).
Qed.

(** X3.  An expression without white space, such as "2+2", is one
    token (or none): the result is the format message, whatever the
    expression is. *)
Theorem evaluate_needs_spaces (s : string) :
  no_space s = true ->
  evaluate_math_expression s = Ok (VStr msg_format).
Proof.
  intros H. apply evaluate_not_three.
  rewrite (split_no_space s H). destruct s; discriminate.
Qed.

(** X4.  Which message three tokens get.  A token that is not a
    number gives the invalid-numbers message whatever the operator is;
    with two numbers, an operator other than +, -, *, / gives the
    unsupported-operator message, which quotes the operator; with two
    numbers, a division by a zero of either sign gives the
    division-by-zero message whatever the dividend (NaN and the
    infinities included). *)
Theorem evaluate_message_order (s p0 op p2 : string) :
  py_split (py_strip s) = [p0; op; p2] ->
  (parse_float p0 = None \/ parse_float p2 = None ->
   evaluate_math_expression s = Ok (VStr msg_numbers))
  /\ (forall x y,
         parse_float p0 = Some x -> parse_float p2 = Some y ->
         ~ In op ["+"; "-"; "*"; "/"] ->
         evaluate_math_expression s
         = Ok (VStr ("Unsupported operator: '" ++ op
                     ++ "'. Only +, -, *, / are supported.")))
  /\ (forall x sg,
         parse_float p0 = Some x -> parse_float p2 = Some (S754_zero sg) ->
         op = "/" ->
         evaluate_math_expression s = Ok (VStr msg_zero)).
Proof.
  intros P. rewrite (evaluate_three _ _ _ _ P). split; [|split].
  - apply try_bad_number.
  - intros x y H0 H2 N. now rewrite (try_unknown_operator _ _ _ x y).
  - intros x sg H0 H2 ->. now rewrite (try_zero_divisor _ _ x sg).
Qed.


(** What the [try] block can return. *)
Lemma try_body_returns (p0 op p2 : string) (v : value) :
  try_body p0 op p2 = Ok v ->
  (exists m, v = VStr m)
  \/ exists r n,
       is_finite r = true /\ int_of_float r = Ok n
       /\ ((float_eq_int r n = true /\ v = VInt n)
           \/ (float_eq_int r n = false /\ v = VFloat r)).
Proof.
  unfold try_body, py_float.
  destruct (parse_float p0) as [x|]; [|discriminate].
  destruct (parse_float p2) as [y|]; [|discriminate]. cbn [bind].
  destruct (dict_get ops op) as [f|]; [|intros [= <-]; left; eauto].
  destruct (f x y) as [r|e]; [|discriminate]. cbn [bind].
  destruct (int_of_float r) as [n|e] eqn:I; [|discriminate]. cbn [bind].
  assert (F : is_finite r = true) by (destruct r; try discriminate; reflexivity).
  destruct (float_eq_int r n) eqn:E.
  - cbn [bind]. intros [= <-]. right. exists r, n. tauto.
  - intros [= <-]. right. exists r, n. tauto.
Qed.

(** X6.  What the evaluator can return, on every input.  A float
    result is finite and has a fractional part: neither an infinity,
    nor a NaN, nor a whole number is ever returned as a float.  An
    integer result is the exact value of a finite double. *)
Theorem evaluate_result_shape (s : string) :
  (forall x, evaluate_math_expression s = Ok (VFloat x) ->
             is_finite x = true /\ ~ is_whole (float_value x))
  /\ (forall n, evaluate_math_expression s = Ok (VInt n) ->
                exists r, is_finite r = true
                          /\ (inject_Z n == float_value r)%Q).
Proof.
  assert (G : forall v, (forall m, v <> VStr m) ->
              evaluate_math_expression s = Ok v ->
              exists p0 op p2, try_body p0 op p2 = Ok v).
  { intros v NS. unfold evaluate_math_expression.
    destruct (py_split (py_strip s)) as [|a [|b [|c [|d l]]]];
      try (intros [= <-]; now elim (NS msg_format)).
    destruct (try_body a b c) as [v'|e] eqn:T; unfold try_except.
    - intros [= <-]. eauto.
    - destruct (handlers_catch e) as [H|[H|H]]; rewrite H;
        intros [= <-]; now elim (NS _ eq_refl). }
  split.
  - intros x H. destruct (G (VFloat x) ltac:(intros ?; discriminate) H) as (p0 & op & p2 & T).
    destruct (try_body_returns _ _ _ _ T) as [[m E]|(r & n & F & I & [[_ E]|[Q E]])];
      try discriminate.
    injection E as ->. split; [exact F|].
    destruct (int_of_finite r F) as (n0 & I0 & W & _).
    rewrite I in I0. injection I0 as <-.
    intros [k K]. destruct (W k K) as [_ Q']. congruence.
  - intros n H. destruct (G (VInt n) ltac:(intros ?; discriminate) H) as (p0 & op & p2 & T).
    destruct (try_body_returns _ _ _ _ T) as [[m E]|(r & k & F & I & [[Q E]|[_ E]])];
      try discriminate.
    injection E as ->. exists r. split; [exact F|].
    destruct (int_of_finite r F) as (n0 & I0 & _ & V).
    rewrite I in I0. injection I0 as <-. now apply V.
Qed.

End MathToolShape.

Lemma evaluate_ignores_spacing_witness :
  MathTool.evaluate_math_expression
    (String (ascii_of_N 9) " 42" ++ String (ascii_of_N 10) "" ++ "*"
     ++ "   " ++ "7" ++ " ")
  = MathTool.evaluate_math_expression ("42" ++ " " ++ "*" ++ " " ++ "7").
Proof.
  apply (evaluate_ignores_spacing (String (ascii_of_N 9) " ") "42"
           (String (ascii_of_N 10) "") "*" "   " "7" " ");
    try reflexivity; split; (discriminate || reflexivity).
Defined.

Lemma evaluate_needs_spaces_witness :
  MathTool.evaluate_math_expression "2+2" = Ok (MathTool.VStr MathTool.msg_format).
Proof. apply evaluate_needs_spaces. reflexivity. Defined.

Lemma evaluate_message_order_witness :
  MathTool.evaluate_math_expression "abc ^ 2"
  = Ok (MathTool.VStr MathTool.msg_numbers).
Proof.
  apply (proj1 (evaluate_message_order "abc ^ 2" "abc" "^" "2" eq_refl)).
  left. reflexivity.
Defined.


Lemma evaluate_result_shape_witness :
  is_finite (S754_finite false 5629499534213120 (-51)) = true
  /\ ~ is_whole (float_value (S754_finite false 5629499534213120 (-51))).
Proof.
  apply (proj1 (evaluate_result_shape "10 / 4")). vm_compute. reflexivity.
Defined.

(* ================================================================= *)
(** ** More on the weather lookup *)

Section WeatherMore.

Import Weather.

Variable py_repr : json -> string.

Lemma py_get_field (d : list (string * json)) (k : string) (default : json) :
  py_get (JDict d) k default = Ok (field d k default).
Proof. reflexivity. Qed.

(** The result for a response that passes [raise_for_status]. *)
Lemma weather_result_body (key location : string) (r : response) :
  key_configured key = true ->
  http_error_status (status_code r) = false ->
  weather_result py_repr (answers r) key (Some location)
  = try_except (data <- json_result r ;; report py_repr location data)
      (handlers location).
Proof.
  intros K H.
  rewrite (proj1 (weather_result_configured py_repr _ _ (Some location) K)).
  unfold answers, try_body. cbn [bind]. now rewrite (raise_for_status_ok _ H).
Qed.

(** X7.  The sentence for a successful answer.  Take a key, a status
    that is no error and a body that is a dictionary whose [cod] is 200.
    When [main] and [sys] are dictionaries or absent and [weather] is
    absent or a list whose first element is a dictionary, the lookup
    returns "It's <temp>°C and <description> in <name>, <country>.",
    where the description defaults to "unknown" and a missing name or
    country shows as "None"; when the temperature is missing or null it
    returns the sentence that says so instead.  When one of [main],
    [weather] and [sys] has another shape, the lookup returns the
    message of the unexpected error instead of a sentence. *)
Theorem weather_sentence (key location : string) (r : response)
    (d : list (string * json)) :
  key_configured key = true ->
  http_error_status (status_code r) = false ->
  json_result r = Ok (JDict d) ->
  eq_200 (field d "cod" JNull) = true ->
  (forall (md wd sd : list (string * json)) (others : list json),
     field d "main" (JDict []) = JDict md ->
     field d "weather" (JList [JDict []]) = JList (JDict wd :: others) ->
     field d "sys" (JDict []) = JDict sd ->
     weather_result py_repr (answers r) key (Some location)
     = Ok (if is_none (field md "temp" JNull)
           then "Weather data available for "
                ++ fmt py_repr (field d "name" JNull)
                ++ ", " ++ fmt py_repr (field sd "country" JNull)
                ++ ", but temperature is missing."
           else "It's " ++ fmt py_repr (field md "temp" JNull) ++ degree
                ++ "C and "
                ++ fmt py_repr (field wd "description" (JStr "unknown"))
                ++ " in " ++ fmt py_repr (field d "name" JNull) ++ ", "
                ++ fmt py_repr (field sd "country" JNull) ++ "."))
  /\ (is_dict (field d "main" (JDict [])) = false
      \/ starts_with_dict (field d "weather" (JList [JDict []])) = false
      \/ is_dict (field d "sys" (JDict [])) = false ->
      exists e,
        weather_result py_repr (answers r) key (Some location)
        = Ok (msg_unexpected e)).
Proof.
  intros K H J C. rewrite (weather_result_body _ _ _ K H), J.
  cbn [bind]. unfold report. rewrite !py_get_field. cbn [bind].
  rewrite C. split.
  - intros md wd sd others M W S. rewrite M, W, S.
    cbn [subscript0 bind]. rewrite !py_get_field.
    cbn [bind]. now destruct (is_none (field md "temp" JNull)).
  - generalize (field d "main" (JDict [])) (field d "weather" (JList [JDict []]))
      (field d "sys" (JDict [])).
    intros m w s B.
    destruct w as [ | b | n | x | [ | c str ] | [ | x l ] | items ];
      try (eexists; reflexivity).
    destruct x; try (eexists; reflexivity).
    destruct m; try (eexists; reflexivity).
    destruct s; try (eexists; reflexivity).
    cbn in B. now destruct B as [ B | [ B | B ] ].
Qed.

(** X8.  Failures of the request.  With a key, when [requests.get]
    raises, or when decoding the body of an answer that is no HTTP
    error raises, the lookup returns the network-error message with the
    text of the exception if it is a [RequestException], and the
    unexpected-error message otherwise. *)
Theorem weather_request_failure (key location : string) (net : network)
    (e : exn) :
  key_configured key = true ->
  net (the_request key location) = Raise e
  \/ (exists r, net (the_request key location) = Ok r
                /\ http_error_status (status_code r) = false
                /\ json_result r = Raise e) ->
  weather_result py_repr net key (Some location)
  = Ok (if isinstance e RequestException
        then "Error fetching weather for " ++ location
             ++ ": A network error occurred: " ++ exn_str e
        else "An unexpected error occurred while processing weather data: "
             ++ exn_str e).
Proof.
  intros K H.
  rewrite (proj1 (weather_result_configured py_repr net _ (Some location) K)).
  unfold try_body.
  assert (D : dispatch e (handlers location)
              = Ok (if isinstance e RequestException
                    then msg_network location e else msg_unexpected e)).
  { unfold handlers, dispatch. destruct (isinstance e RequestException);
      [reflexivity|]. now rewrite isinstance_Exception. }
  destruct H as [H|(r & H & S & J)]; rewrite H; cbn [bind].
  - exact D.
  - rewrite (raise_for_status_ok _ S). cbn [bind]. rewrite J. exact D.
Qed.

(** X9.  The requests of a lookup.  Without a usable key (empty or
    the placeholder) no request is made; with one, exactly one request
    is made, whatever its outcome: a GET of the base URL with the
    location as [q], the key as [appid] and metric units. *)
Theorem weather_one_request (net : network) (key : string)
    (location : option string) :
  weather_requests py_repr net key location
  = if key_configured key
    then [ mk_request "http://api.openweathermap.org/data/2.5/weather"
             [ ("q", match location with Some l => l | None => "Chicago" end);
               ("appid", key); ("units", "metric") ] ]
    else [].
Proof.
  destruct (key_configured key) eqn:K.
  - apply (proj2 (weather_result_configured py_repr net key location K)).
  - unfold weather_requests. now rewrite (get_weather_unconfigured _ _ _ K).
Qed.

(** X10.  Bodies of the wrong shape do not make the lookup raise.  A
    decoded body that is not a dictionary gives the unexpected-error
    message naming its type; a body with [cod] 200 whose weather list
    is empty gives the unexpected-error message "list index out of
    range". *)
Theorem weather_malformed_body (key location : string) (r : response) :
  key_configured key = true ->
  http_error_status (status_code r) = false ->
  (forall v, json_result r = Ok v -> is_dict v = false ->
     weather_result py_repr (answers r) key (Some location)
     = Ok ("An unexpected error occurred while processing weather data: '"
           ++ type_name v ++ "' object has no attribute 'get'"))
  /\ (forall d, json_result r = Ok (JDict d) ->
        eq_200 (field d "cod" JNull) = true ->
        field d "weather" (JList [JDict []]) = JList [] ->
        weather_result py_repr (answers r) key (Some location)
        = Ok "An unexpected error occurred while processing weather data: list index out of range").
Proof.
  intros K H. split.
  - intros v J D. rewrite (weather_result_body _ _ _ K H), J. cbn [bind].
    destruct v; try discriminate; reflexivity.
  - intros d J C W. rewrite (weather_result_body _ _ _ K H), J. cbn [bind].
    unfold report. rewrite !py_get_field. cbn [bind]. rewrite C, W.
    reflexivity.
Qed.

End WeatherMore.

(* ================================================================= *)
(** ** The general answer generator *)

Section LlmFacts.

Import LlmTool.

(** X11.  Without a usable key (unset, empty or the placeholder) the
    generator returns the key notice and never calls the model. *)
Theorem llm_without_key (env : option string) (prompt : string)
    (p : provider) :
  env = None \/ env = Some "" \/ env = Some placeholder_key ->
  llm_result p (GOOGLE_API_KEY env) prompt = Ok msg_key
  /\ llm_calls p (GOOGLE_API_KEY env) prompt = [].
Proof.
  intros [->|[->| ->]]; split; reflexivity.
Qed.

Lemma get_llm_response_configured (key prompt : string) :
  llm_key_configured key = true ->
  get_llm_response key prompt
  = Invoke (the_chat_request key prompt)
      (fun reply => Ret (try_except (content <- reply ;; Ok content) handlers)).
Proof.
  unfold llm_key_configured, get_llm_response. intros H.
  apply negb_true_iff in H. now rewrite H.
Qed.

(** X12.  With a key, the generator calls the model exactly once, with
    the model "gemini-2.5-flash", temperature 0 and the prompt,
    unchanged, as the only message.  It returns the content of the
    reply as it is, and the error message with the text of the
    exception when the call raises; it never raises. *)
Theorem llm_one_call (p : provider) (key prompt : string) :
  llm_key_configured key = true ->
  llm_calls p key prompt
  = [ {| model := "gemini-2.5-flash"; google_api_key := key;
         temperature := 0; messages := [HumanMessage prompt] |} ]
  /\ (forall content,
         p (the_chat_request key prompt) = Ok content ->
         llm_result p key prompt = Ok content)
  /\ (forall e,
         p (the_chat_request key prompt) = Raise e ->
         llm_result p key prompt
         = Ok ("Error getting LLM response: " ++ exn_str e))
  /\ exists out, llm_result p key prompt = Ok out.
Proof.
  intros K. unfold llm_calls, llm_result.
  rewrite (get_llm_response_configured _ _ K). cbn [run fst snd].
  split; [reflexivity|].
  assert (E : forall e, dispatch e handlers = Ok (msg_error e)).
  { intros e. unfold handlers, dispatch. now rewrite isinstance_Exception. }
  split; [|split].
  - intros content ->. reflexivity.
  - intros e ->. cbn [bind try_except]. apply E.
  - destruct (p (the_chat_request key prompt)) as [c|e]; cbn [bind try_except].
    + eauto.
    + rewrite E. eauto.
Qed.

End LlmFacts.

Lemma weather_sentence_witness :
  weather_result no_repr (answers paris_ok) "k" (Some "Paris")
  = Ok ("It's 21" ++ Weather.degree ++ "C and clear sky in Paris, FR.").
Proof.
  apply (proj1 (weather_sentence no_repr "k" "Paris" paris_ok paris_body
                  eq_refl eq_refl eq_refl eq_refl)
           [("temp", Weather.JInt 21)]
           [("description", Weather.JStr "clear sky")]
           [("country", Weather.JStr "FR")] []); reflexivity.
Defined.

(** A null [main] in a body with [cod] 200 ends in the message of the
    unexpected error. *)
Example weather_null_main :
  weather_result no_repr (answers null_main_ok) "k" (Some "Paris")
  = Ok "An unexpected error occurred while processing weather data: 'NoneType' object has no attribute 'get'".
Proof. reflexivity. Qed.

Lemma weather_request_failure_witness :
  weather_result no_repr unreachable "k" (Some "Paris")
  = Ok "Error fetching weather for Paris: A network error occurred: Connection refused".
Proof.
  apply (weather_request_failure no_repr "k" "Paris" unreachable
           (mk_exn ConnectionError "Connection refused")); [reflexivity|].
  left. reflexivity.
Defined.

Lemma weather_malformed_body_witness :
  weather_result no_repr (answers list_body) "k" (Some "Paris")
  = Ok "An unexpected error occurred while processing weather data: 'list' object has no attribute 'get'".
Proof.
  apply (proj1 (weather_malformed_body no_repr "k" "Paris" list_body
                  eq_refl eq_refl) (Weather.JList [])); reflexivity.
Defined.

Lemma llm_without_key_witness :
  llm_result echo (LlmTool.GOOGLE_API_KEY None) "hello" = Ok LlmTool.msg_key
  /\ llm_calls echo (LlmTool.GOOGLE_API_KEY None) "hello" = [].
Proof. apply llm_without_key. now left. Defined.

Lemma llm_one_call_witness :
  llm_result echo "k" "hello" = Ok "You said: hello".
Proof.
  apply (proj1 (proj2 (llm_one_call echo "k" "hello" eq_refl))). reflexivity.
Defined.

(* ================================================================= *)
(** ** The tools together *)

Section RegistryFacts.

Import Registry.

Variable py_repr : Weather.json -> string.
Variable weather_key google_key : string.

Lemma evaluate_total (s : string) :
  exists v, MathTool.evaluate_math_expression s = Ok v.
Proof.
  unfold MathTool.evaluate_math_expression.
  destruct (py_split (py_strip s)) as [|a [|b [|c [|d l]]]]; eauto.
  apply try_statement_total.
Qed.


Lemma run_of_weather {A B} (f : A -> B) (net : Weather.network)
    (p : LlmTool.provider) (m : Weather.io A) :
  run net p (of_weather f m)
  = (map HttpCall (fst (Weather.run net m)), f (snd (Weather.run net m))).
Proof.
  induction m as [a|u ps k IH]; [reflexivity|].
  cbn [of_weather run Weather.run]. rewrite IH.
  destruct (Weather.run net (k (net (Weather.mk_request u ps)))) as [log a].
  reflexivity.
Qed.

Lemma run_of_llm {A B} (f : A -> B) (net : Weather.network)
    (p : LlmTool.provider) (m : LlmTool.io A) :
  run net p (of_llm f m)
  = (map ChatCall (fst (LlmTool.run p m)), f (snd (LlmTool.run p m))).
Proof.
  induction m as [a|rq k IH]; [reflexivity|].
  cbn [of_llm run LlmTool.run]. rewrite IH.
  destruct (LlmTool.run p (k (p rq))) as [log a]. reflexivity.
Qed.

(** X14.  Calling a tool.  Whatever the registered tool, its input,
    the network and the model provider, the call returns a value (it
    never raises) after at most one external call; and when neither key
    is usable, no tool makes any external call. *)
Theorem tool_call_is_safe (t : tool) (input : string)
    (net : Weather.network) (p : LlmTool.provider) :
  In t (tools py_repr weather_key google_key) ->
  (exists v, snd (run net p (func t input)) = Ok v)
  /\ (List.length (fst (run net p (func t input))) <= 1)%nat
  /\ (key_configured weather_key = false ->
      llm_key_configured google_key = false ->
      fst (run net p (func t input)) = []).
Proof.
  intros [<-|[<-|[<-|[]]]]; cbn [func weather_tool math_tool llm_tool].
  - rewrite run_of_weather. cbn [fst snd].
    destruct (get_weather_total py_repr net weather_key (Some input)) as [out E].
    unfold weather_result in E. rewrite E.
    pose proof (weather_one_request py_repr net weather_key (Some input)) as R.
    unfold weather_requests in R. rewrite R.
    split; [eexists; reflexivity|].
    destruct (key_configured weather_key).
    + split; [simpl; lia|]. intros X. discriminate X.
    + split; [simpl; lia|reflexivity].
  - cbn [run fst snd]. split; [|split; [simpl; lia|reflexivity]].
    destruct (evaluate_total input) as [v E]. eauto.
  - rewrite run_of_llm. cbn [fst snd].
    destruct (llm_key_configured google_key) eqn:K.
    + destruct (llm_one_call p google_key input K) as (C & _ & _ & [out E]).
      unfold llm_calls in C. unfold llm_result in E. rewrite C, E.
      split; [eexists; reflexivity|]. split; [simpl; lia|].
      intros _ X. discriminate X.
    + assert (E : LlmTool.get_llm_response google_key input
                  = LlmTool.Ret (Ok LlmTool.msg_key)).
      { unfold LlmTool.get_llm_response. unfold llm_key_configured in K.
        apply negb_false_iff in K. now rewrite K. }
      rewrite E. cbn. split; [eexists; reflexivity|].
      split; [lia|reflexivity].
Qed.

End RegistryFacts.

Lemma tool_call_is_safe_witness :
  exists v,
    snd (Registry.run unreachable echo
           (Registry.func (Registry.llm_tool "g") "hello")) = Ok v.
Proof.
  apply (tool_call_is_safe no_repr "k" "g" (Registry.llm_tool "g") "hello"
           unreachable echo).
  right. right. left. reflexivity.
Defined.

(* ================================================================= *)
(** ** More on the result reporter *)

Section AgentMore.

Import Agent.

Lemma intermediate_spec (c : chunk) :
  intermediate c = true -> final_answer c = None /\ broken_finish c = false.
Proof.
  unfold intermediate. destruct (final_answer c); [discriminate|].
  intros H. apply negb_true_iff in H. now split.
Qed.

Lemma observed_stream_of (cs : list chunk) (tail : stream) :
  forallb intermediate cs = true ->
  observed (stream_of cs tail) = (cs ++ observed tail)%list
  /\ loop_error (stream_of cs tail) = loop_error tail.
Proof.
  induction cs as [|c cs IH]; intros H; [now split|].
  cbn [forallb] in H. apply andb_true_iff in H. destruct H as [C H].
  destruct (intermediate_spec c C) as [F B]. destruct (IH H) as [O E].
  cbn [stream_of observed loop_error]. rewrite F, B, O, E. now split.
Qed.

Lemma first_answer_app (cs l : list chunk) :
  forallb intermediate cs = true ->
  first_answer (cs ++ l) = first_answer l.
Proof.
  induction cs as [|c cs IH]; intros H; [reflexivity|].
  cbn [forallb] in H. apply andb_true_iff in H. destruct H as [C H].
  destruct (intermediate_spec c C) as [F _].
  cbn [List.app first_answer]. rewrite F. now apply IH.
Qed.

(** X15.  A stream that ends without a Final Answer and without an
    exception gives the default result "An unexpected error occurred
    or no response from agent."; [tool_used] is still the tag of the
    first Action event. *)
Theorem no_answer_response (query : string) (cs : list chunk) :
  forallb intermediate cs = true ->
  report query (stream_of cs Exhausted)
  = Ok {| r_query := query;
          r_tool_used := tag_of_first_action cs;
          r_result := "An unexpected error occurred or no response from agent." |}.
Proof.
  intros H. rewrite report_spec.
  destruct (observed_stream_of cs Exhausted H) as [O E].
  rewrite O, E. cbn [observed loop_error]. rewrite app_nil_r.
  rewrite <- (app_nil_r cs) at 2. rewrite (first_answer_app cs [] H).
  reflexivity.
Qed.



(** *** The line is plain ASCII *)







End AgentMore.

Lemma no_answer_response_witness :
  Agent.report "q"
    (Agent.Yield (action_chunk "MathTool")
       (Agent.Yield steps_chunk Agent.Exhausted))
  = Ok {| Agent.r_query := "q";
          Agent.r_tool_used := "math";
          Agent.r_result :=
            "An unexpected error occurred or no response from agent." |}.
Proof.
  apply (no_answer_response "q" [action_chunk "MathTool"; steps_chunk]).
  reflexivity.
Defined.


